(** * go-modbus-cli: request model, dispatcher and wide-value codec

    A shallow embedding of [main.go]: the argument parser and validator,
    the transport selector, the operation dispatcher with its read and
    write handlers, the word-pair codec and the poll loop, followed by the
    properties of the natural-language specification, each settled against
    these definitions. *)

From Stdlib Require Import ZArith String Ascii List Bool Lia DecimalString.
Import ListNotations.

Local Open Scope string_scope.
Local Open Scope Z_scope.

(** ** Go's fixed-width integers, strings and [strconv.Atoi] *)

Module Go.

(** Conversions to the fixed-width integer types: the value keeps its low
    bits (two's complement). *)
Definition uint16 (z : Z) : Z := z mod 2 ^ 16.
Definition uint32 (z : Z) : Z := z mod 2 ^ 32.
Definition uint64 (z : Z) : Z := z mod 2 ^ 64.
Definition int32 (z : Z) : Z := (z + 2 ^ 31) mod 2 ^ 32 - 2 ^ 31.
Definition int64 (z : Z) : Z := (z + 2 ^ 63) mod 2 ^ 64 - 2 ^ 63.

(** [int] is 64 bits wide; [a + b] and [a * b] on [int] wrap around. *)
Definition add (a b : Z) : Z := int64 (a + b).
Definition mul (a b : Z) : Z := int64 (a * b).

(** [time.Millisecond] and [time.Second], in nanoseconds. *)
Definition Millisecond : Z := 1000000.
Definition Second : Z := 1000000000.

(** A function result [(v, err)]: either the value or the error's text. *)
Inductive result (A : Type) : Type :=
| Ok (a : A)
| Err (msg : string).
Arguments Ok {A} a.
Arguments Err {A} msg.

(** The [%d] verb. *)
Definition itoa (z : Z) : string := NilZero.string_of_int (Z.to_int z).

(** [strings.Contains s sep] for a one-byte [sep]. *)
Fixpoint containsByte (c : ascii) (s : string) : bool :=
  match s with
  | EmptyString => false
  | String d r => if Ascii.eqb c d then true else containsByte c r
  end.

(** [strings.Split(s, sep)[0]] for a one-byte [sep]: what precedes the
    first separator, or all of [s]. *)
Fixpoint firstField (c : ascii) (s : string) : string :=
  match s with
  | EmptyString => EmptyString
  | String d r => if Ascii.eqb c d then EmptyString else String d (firstField c r)
  end.

Definition digitVal (c : ascii) : option Z :=
  let n := Z.of_N (N_of_ascii c) in
  if (48 <=? n) && (n <=? 57) then Some (n - 48) else None.

Fixpoint digits (s : string) (acc : Z) : option Z :=
  match s with
  | EmptyString => Some acc
  | String c r =>
      match digitVal c with
      | Some d => digits r (acc * 10 + d)
      | None => None
      end
  end.

(** [strconv.Quote] on a string of ASCII bytes: the quote and the
    backslash are escaped, the control characters written as [\a], [\b],
    [\f], [\n], [\r], [\t], [\v] or [\x] and two hexadecimal digits, and
    every other byte kept. (A byte above 127 is kept too, as [Quote] keeps
    the printable characters outside ASCII.) *)
Definition hexDigit (n : N) : ascii :=
  ascii_of_N (if (n <? 10)%N then 48 + n else 87 + n).

Definition quoteByte (c : ascii) : string :=
  let n := N_of_ascii c in
  let escape (x : ascii) := String (ascii_of_nat 92) (String x EmptyString) in
  if ((n =? 34) || (n =? 92))%N then escape c
  else if (n =? 7)%N then escape "a"%char
  else if (n =? 8)%N then escape "b"%char
  else if (n =? 12)%N then escape "f"%char
  else if (n =? 10)%N then escape "n"%char
  else if (n =? 13)%N then escape "r"%char
  else if (n =? 9)%N then escape "t"%char
  else if (n =? 11)%N then escape "v"%char
  else if ((n <? 32) || (n =? 127))%N then
    String (ascii_of_nat 92)
      (String "x"%char
         (String (hexDigit (n / 16)) (String (hexDigit (n mod 16)) EmptyString)))
  else String c EmptyString.

Fixpoint quoteBytes (s : string) : string :=
  match s with
  | EmptyString => EmptyString
  | String c r => quoteByte c ++ quoteBytes r
  end.

Definition Quote (s : string) : string :=
  String (ascii_of_nat 34) (quoteBytes s ++ String (ascii_of_nat 34) EmptyString).

(** The text of the [*strconv.NumError] that [Atoi] returns. *)
Definition atoiError (s why : string) : string :=
  "strconv.Atoi: parsing " ++ Quote s ++ ": " ++ why.

(** [strconv.Atoi]: an optional sign, then one or more decimal digits,
    the value within the range of a 64-bit [int]. *)
Definition Atoi (s : string) : result Z :=
  let '(neg, body) :=
    match s with
    | String "+" r => (false, r)
    | String "-" r => (true, r)
    | _ => (false, s)
    end in
  match body with
  | EmptyString => Err (atoiError s "invalid syntax")
  | _ =>
      match digits body 0 with
      | None => Err (atoiError s "invalid syntax")
      | Some n =>
          let v := if neg then - n else n in
          if (- 2 ^ 63 <=? v) && (v <=? 2 ^ 63 - 1) then Ok v
          else Err (atoiError s "value out of range")
      end
  end.

(** [float64] and the conversions the program applies to it. The type
    and [strconv.ParseFloat] belong to the Go runtime and library; the
    program is embedded over any implementation of them. *)
Record Float64Ops (float64 : Type) : Type := {
  (** [strconv.ParseFloat(s, 64)] *)
  ParseFloat : string -> result float64;
  (** [v != 0] *)
  nonZero : float64 -> bool;
  (** [uint16(v)] *)
  toUint16 : float64 -> Z;
  (** [uint32(v)] *)
  toUint32 : float64 -> Z;
  (** [time.Duration(v * float64(time.Second))] *)
  secondsToDuration : float64 -> Z
}.
Arguments ParseFloat {float64} _ _.
Arguments nonZero {float64} _ _.
Arguments toUint16 {float64} _ _.
Arguments toUint32 {float64} _ _.
Arguments secondsToDuration {float64} _ _.

(** [math.Float32frombits] and [math.Float32bits]: a [float32] is given
    by its 32-bit pattern. *)
Record float32 : Type := Float32frombits { Float32bits : Z }.

End Go.

Import Go.

(** ** The collaborator: [modbus.ModbusClient] *)

Inductive RegType : Type := HOLDING_REGISTER | INPUT_REGISTER.

(** The methods of the client that the program calls. Each takes the
    session and returns its result with the session that follows. *)
Record ModbusClient (session : Type) : Type := {
  ReadCoils : session -> Z -> Z -> result (list bool) * session;
  ReadDiscreteInputs : session -> Z -> Z -> result (list bool) * session;
  ReadRegisters : session -> Z -> Z -> RegType -> result (list Z) * session;
  WriteCoils : session -> Z -> list bool -> option string * session;
  WriteRegisters : session -> Z -> list Z -> option string * session;
  WriteUint32s : session -> Z -> list Z -> option string * session;
  WriteFloat32s : session -> Z -> list float32 -> option string * session
}.
Arguments ReadCoils {session} _ _ _ _.
Arguments ReadDiscreteInputs {session} _ _ _ _.
Arguments ReadRegisters {session} _ _ _ _ _.
Arguments WriteCoils {session} _ _ _ _.
Arguments WriteRegisters {session} _ _ _ _.
Arguments WriteUint32s {session} _ _ _ _.
Arguments WriteFloat32s {session} _ _ _ _.

(** A request as it reaches the client. *)
Inductive request : Type :=
| ReqReadCoils (addr quantity : Z)
| ReqReadDiscreteInputs (addr quantity : Z)
| ReqReadRegisters (addr quantity : Z) (regType : RegType)
| ReqWriteCoils (addr : Z) (values : list bool)
| ReqWriteRegisters (addr : Z) (values : list Z)
| ReqWriteUint32s (addr : Z) (values : list Z)
| ReqWriteFloat32s (addr : Z) (values : list float32).

Definition requestAddr (r : request) : Z :=
  match r with
  | ReqReadCoils a _ | ReqReadDiscreteInputs a _ | ReqReadRegisters a _ _
  | ReqWriteCoils a _ | ReqWriteRegisters a _ | ReqWriteUint32s a _
  | ReqWriteFloat32s a _ => a
  end.

Definition isWrite (r : request) : bool :=
  match r with
  | ReqWriteCoils _ _ | ReqWriteRegisters _ _ | ReqWriteUint32s _ _
  | ReqWriteFloat32s _ _ => true
  | _ => false
  end.

(** ** Console output *)

(** What follows [[addr]: reg] on a register's line. *)
Inductive annotation : Type :=
| NoAnnotation
| AnnHex (reg : Z)              (* [ (0x%04X)] *)
| AnnInt32 (val : Z)            (* [ (%d as 32-bit int)] *)
| AnnFloat32 (val : float32).   (* [ (%.2f as 32-bit float)] *)

(** One constructor per [Printf] format of the program. *)
Inductive line : Type :=
| LHeader (label : string) (first last : Z)      (* [%s (%d-%d):] *)
| LValue (addr val : Z)                          (* [[%d]: %d] *)
| LRegister (addr reg : Z) (ann : annotation)    (* [[%d]: %d] and annotation *)
| LWrote (n : nat) (what : string) (startRef : Z)
    (* [Successfully wrote %d <what> starting at address %d] *)
| LFloat (addr : Z) (val : float32)              (* [[%d]: %.2f] *)
| LProtocol (mode : string)
| LSlave (slaveID : Z)
| LDataType (dataType : string)
| LCommunication (device : string) (baud databits : Z) (parity : ascii) (stopbits : Z)
| LTimeout (timeout : Z)
| LPollRate (pollRate : Z).

(** What a run does, in order: requests to the client, sleeps, output. *)
Inductive event : Type :=
| Call (r : request)
| Sleep (d : Z)
| Print (l : line).

(** A loop that has not finished within the steps it was given. *)
Inductive outcome (A : Type) : Type :=
| Returned (a : A)
| Exited (code : Z)
| OutOfFuel.
Arguments Returned {A} a.
Arguments Exited {A} code.
Arguments OutOfFuel {A}.

(** ** The configuration model *)

Section Configuration.

Context {float64 : Type}.

Record Config : Type := {
  (* Connection settings *)
  Mode : string;
  Host : string;
  Port : Z;
  Device : string;
  Baudrate : Z;
  Databits : Z;
  Stopbits : Z;
  Parity : string;
  Timeout : Z;          (* [time.Duration], nanoseconds *)
  (* Modbus settings *)
  SlaveID : Z;
  StartRef : Z;
  Count : Z;
  DataType : string;
  ZeroBased : bool;
  BigEndian : bool;
  PollOnce : bool;
  PollRate : Z;         (* [time.Duration], nanoseconds *)
  Verbose : bool;
  (* Write values *)
  WriteValues : list float64;
  (* RTU specific *)
  RTSMode : Z;
  RTSPin : Z
}.

(** Assignments to one field, [config.F = v]. *)
Definition set_Mode (v : string) (c : Config) : Config :=
  {| Mode := v; Host := Host c; Port := Port c; Device := Device c;
     Baudrate := Baudrate c; Databits := Databits c; Stopbits := Stopbits c;
     Parity := Parity c; Timeout := Timeout c; SlaveID := SlaveID c;
     StartRef := StartRef c; Count := Count c; DataType := DataType c;
     ZeroBased := ZeroBased c; BigEndian := BigEndian c;
     PollOnce := PollOnce c; PollRate := PollRate c; Verbose := Verbose c;
     WriteValues := WriteValues c; RTSMode := RTSMode c; RTSPin := RTSPin c |}.

Definition set_Host (v : string) (c : Config) : Config :=
  {| Mode := Mode c; Host := v; Port := Port c; Device := Device c;
     Baudrate := Baudrate c; Databits := Databits c; Stopbits := Stopbits c;
     Parity := Parity c; Timeout := Timeout c; SlaveID := SlaveID c;
     StartRef := StartRef c; Count := Count c; DataType := DataType c;
     ZeroBased := ZeroBased c; BigEndian := BigEndian c;
     PollOnce := PollOnce c; PollRate := PollRate c; Verbose := Verbose c;
     WriteValues := WriteValues c; RTSMode := RTSMode c; RTSPin := RTSPin c |}.

Definition set_Port (v : Z) (c : Config) : Config :=
  {| Mode := Mode c; Host := Host c; Port := v; Device := Device c;
     Baudrate := Baudrate c; Databits := Databits c; Stopbits := Stopbits c;
     Parity := Parity c; Timeout := Timeout c; SlaveID := SlaveID c;
     StartRef := StartRef c; Count := Count c; DataType := DataType c;
     ZeroBased := ZeroBased c; BigEndian := BigEndian c;
     PollOnce := PollOnce c; PollRate := PollRate c; Verbose := Verbose c;
     WriteValues := WriteValues c; RTSMode := RTSMode c; RTSPin := RTSPin c |}.

Definition set_Device (v : string) (c : Config) : Config :=
  {| Mode := Mode c; Host := Host c; Port := Port c; Device := v;
     Baudrate := Baudrate c; Databits := Databits c; Stopbits := Stopbits c;
     Parity := Parity c; Timeout := Timeout c; SlaveID := SlaveID c;
     StartRef := StartRef c; Count := Count c; DataType := DataType c;
     ZeroBased := ZeroBased c; BigEndian := BigEndian c;
     PollOnce := PollOnce c; PollRate := PollRate c; Verbose := Verbose c;
     WriteValues := WriteValues c; RTSMode := RTSMode c; RTSPin := RTSPin c |}.

Definition set_Baudrate (v : Z) (c : Config) : Config :=
  {| Mode := Mode c; Host := Host c; Port := Port c; Device := Device c;
     Baudrate := v; Databits := Databits c; Stopbits := Stopbits c;
     Parity := Parity c; Timeout := Timeout c; SlaveID := SlaveID c;
     StartRef := StartRef c; Count := Count c; DataType := DataType c;
     ZeroBased := ZeroBased c; BigEndian := BigEndian c;
     PollOnce := PollOnce c; PollRate := PollRate c; Verbose := Verbose c;
     WriteValues := WriteValues c; RTSMode := RTSMode c; RTSPin := RTSPin c |}.

Definition set_Databits (v : Z) (c : Config) : Config :=
  {| Mode := Mode c; Host := Host c; Port := Port c; Device := Device c;
     Baudrate := Baudrate c; Databits := v; Stopbits := Stopbits c;
     Parity := Parity c; Timeout := Timeout c; SlaveID := SlaveID c;
     StartRef := StartRef c; Count := Count c; DataType := DataType c;
     ZeroBased := ZeroBased c; BigEndian := BigEndian c;
     PollOnce := PollOnce c; PollRate := PollRate c; Verbose := Verbose c;
     WriteValues := WriteValues c; RTSMode := RTSMode c; RTSPin := RTSPin c |}.

Definition set_Stopbits (v : Z) (c : Config) : Config :=
  {| Mode := Mode c; Host := Host c; Port := Port c; Device := Device c;
     Baudrate := Baudrate c; Databits := Databits c; Stopbits := v;
     Parity := Parity c; Timeout := Timeout c; SlaveID := SlaveID c;
     StartRef := StartRef c; Count := Count c; DataType := DataType c;
     ZeroBased := ZeroBased c; BigEndian := BigEndian c;
     PollOnce := PollOnce c; PollRate := PollRate c; Verbose := Verbose c;
     WriteValues := WriteValues c; RTSMode := RTSMode c; RTSPin := RTSPin c |}.

Definition set_Parity (v : string) (c : Config) : Config :=
  {| Mode := Mode c; Host := Host c; Port := Port c; Device := Device c;
     Baudrate := Baudrate c; Databits := Databits c; Stopbits := Stopbits c;
     Parity := v; Timeout := Timeout c; SlaveID := SlaveID c;
     StartRef := StartRef c; Count := Count c; DataType := DataType c;
     ZeroBased := ZeroBased c; BigEndian := BigEndian c;
     PollOnce := PollOnce c; PollRate := PollRate c; Verbose := Verbose c;
     WriteValues := WriteValues c; RTSMode := RTSMode c; RTSPin := RTSPin c |}.

Definition set_Timeout (v : Z) (c : Config) : Config :=
  {| Mode := Mode c; Host := Host c; Port := Port c; Device := Device c;
     Baudrate := Baudrate c; Databits := Databits c; Stopbits := Stopbits c;
     Parity := Parity c; Timeout := v; SlaveID := SlaveID c;
     StartRef := StartRef c; Count := Count c; DataType := DataType c;
     ZeroBased := ZeroBased c; BigEndian := BigEndian c;
     PollOnce := PollOnce c; PollRate := PollRate c; Verbose := Verbose c;
     WriteValues := WriteValues c; RTSMode := RTSMode c; RTSPin := RTSPin c |}.

Definition set_SlaveID (v : Z) (c : Config) : Config :=
  {| Mode := Mode c; Host := Host c; Port := Port c; Device := Device c;
     Baudrate := Baudrate c; Databits := Databits c; Stopbits := Stopbits c;
     Parity := Parity c; Timeout := Timeout c; SlaveID := v;
     StartRef := StartRef c; Count := Count c; DataType := DataType c;
     ZeroBased := ZeroBased c; BigEndian := BigEndian c;
     PollOnce := PollOnce c; PollRate := PollRate c; Verbose := Verbose c;
     WriteValues := WriteValues c; RTSMode := RTSMode c; RTSPin := RTSPin c |}.

Definition set_StartRef (v : Z) (c : Config) : Config :=
  {| Mode := Mode c; Host := Host c; Port := Port c; Device := Device c;
     Baudrate := Baudrate c; Databits := Databits c; Stopbits := Stopbits c;
     Parity := Parity c; Timeout := Timeout c; SlaveID := SlaveID c;
     StartRef := v; Count := Count c; DataType := DataType c;
     ZeroBased := ZeroBased c; BigEndian := BigEndian c;
     PollOnce := PollOnce c; PollRate := PollRate c; Verbose := Verbose c;
     WriteValues := WriteValues c; RTSMode := RTSMode c; RTSPin := RTSPin c |}.

Definition set_Count (v : Z) (c : Config) : Config :=
  {| Mode := Mode c; Host := Host c; Port := Port c; Device := Device c;
     Baudrate := Baudrate c; Databits := Databits c; Stopbits := Stopbits c;
     Parity := Parity c; Timeout := Timeout c; SlaveID := SlaveID c;
     StartRef := StartRef c; Count := v; DataType := DataType c;
     ZeroBased := ZeroBased c; BigEndian := BigEndian c;
     PollOnce := PollOnce c; PollRate := PollRate c; Verbose := Verbose c;
     WriteValues := WriteValues c; RTSMode := RTSMode c; RTSPin := RTSPin c |}.

Definition set_DataType (v : string) (c : Config) : Config :=
  {| Mode := Mode c; Host := Host c; Port := Port c; Device := Device c;
     Baudrate := Baudrate c; Databits := Databits c; Stopbits := Stopbits c;
     Parity := Parity c; Timeout := Timeout c; SlaveID := SlaveID c;
     StartRef := StartRef c; Count := Count c; DataType := v;
     ZeroBased := ZeroBased c; BigEndian := BigEndian c;
     PollOnce := PollOnce c; PollRate := PollRate c; Verbose := Verbose c;
     WriteValues := WriteValues c; RTSMode := RTSMode c; RTSPin := RTSPin c |}.

Definition set_ZeroBased (v : bool) (c : Config) : Config :=
  {| Mode := Mode c; Host := Host c; Port := Port c; Device := Device c;
     Baudrate := Baudrate c; Databits := Databits c; Stopbits := Stopbits c;
     Parity := Parity c; Timeout := Timeout c; SlaveID := SlaveID c;
     StartRef := StartRef c; Count := Count c; DataType := DataType c;
     ZeroBased := v; BigEndian := BigEndian c; PollOnce := PollOnce c;
     PollRate := PollRate c; Verbose := Verbose c;
     WriteValues := WriteValues c; RTSMode := RTSMode c; RTSPin := RTSPin c |}.

Definition set_BigEndian (v : bool) (c : Config) : Config :=
  {| Mode := Mode c; Host := Host c; Port := Port c; Device := Device c;
     Baudrate := Baudrate c; Databits := Databits c; Stopbits := Stopbits c;
     Parity := Parity c; Timeout := Timeout c; SlaveID := SlaveID c;
     StartRef := StartRef c; Count := Count c; DataType := DataType c;
     ZeroBased := ZeroBased c; BigEndian := v; PollOnce := PollOnce c;
     PollRate := PollRate c; Verbose := Verbose c;
     WriteValues := WriteValues c; RTSMode := RTSMode c; RTSPin := RTSPin c |}.

Definition set_PollOnce (v : bool) (c : Config) : Config :=
  {| Mode := Mode c; Host := Host c; Port := Port c; Device := Device c;
     Baudrate := Baudrate c; Databits := Databits c; Stopbits := Stopbits c;
     Parity := Parity c; Timeout := Timeout c; SlaveID := SlaveID c;
     StartRef := StartRef c; Count := Count c; DataType := DataType c;
     ZeroBased := ZeroBased c; BigEndian := BigEndian c; PollOnce := v;
     PollRate := PollRate c; Verbose := Verbose c;
     WriteValues := WriteValues c; RTSMode := RTSMode c; RTSPin := RTSPin c |}.

Definition set_PollRate (v : Z) (c : Config) : Config :=
  {| Mode := Mode c; Host := Host c; Port := Port c; Device := Device c;
     Baudrate := Baudrate c; Databits := Databits c; Stopbits := Stopbits c;
     Parity := Parity c; Timeout := Timeout c; SlaveID := SlaveID c;
     StartRef := StartRef c; Count := Count c; DataType := DataType c;
     ZeroBased := ZeroBased c; BigEndian := BigEndian c;
     PollOnce := PollOnce c; PollRate := v; Verbose := Verbose c;
     WriteValues := WriteValues c; RTSMode := RTSMode c; RTSPin := RTSPin c |}.

Definition set_Verbose (v : bool) (c : Config) : Config :=
  {| Mode := Mode c; Host := Host c; Port := Port c; Device := Device c;
     Baudrate := Baudrate c; Databits := Databits c; Stopbits := Stopbits c;
     Parity := Parity c; Timeout := Timeout c; SlaveID := SlaveID c;
     StartRef := StartRef c; Count := Count c; DataType := DataType c;
     ZeroBased := ZeroBased c; BigEndian := BigEndian c;
     PollOnce := PollOnce c; PollRate := PollRate c; Verbose := v;
     WriteValues := WriteValues c; RTSMode := RTSMode c; RTSPin := RTSPin c |}.

Definition set_WriteValues (v : list float64) (c : Config) : Config :=
  {| Mode := Mode c; Host := Host c; Port := Port c; Device := Device c;
     Baudrate := Baudrate c; Databits := Databits c; Stopbits := Stopbits c;
     Parity := Parity c; Timeout := Timeout c; SlaveID := SlaveID c;
     StartRef := StartRef c; Count := Count c; DataType := DataType c;
     ZeroBased := ZeroBased c; BigEndian := BigEndian c;
     PollOnce := PollOnce c; PollRate := PollRate c; Verbose := Verbose c;
     WriteValues := v; RTSMode := RTSMode c; RTSPin := RTSPin c |}.

End Configuration.
Arguments Config float64 : clear implicits.

(** ** Argument parser and validator *)

Section Parser.

Context {float64 : Type} (F : Float64Ops float64).

Local Abbreviation Config := (Config float64).

(** The defaults [parseArgs] starts from. *)
Definition defaultConfig : Config :=
  {| Mode := "tcp"; Host := EmptyString; Port := 502; Device := EmptyString;
     Baudrate := 19200; Databits := 8; Stopbits := 1; Parity := "even";
     Timeout := Second; SlaveID := 1; StartRef := 1; Count := 1;
     DataType := "4"; ZeroBased := false; BigEndian := true;
     PollOnce := false; PollRate := Second; Verbose := false;
     WriteValues := []; RTSMode := 0; RTSPin := 0 |}.

(** [validParities[p]]: a missing key reads as [false]. *)
Definition validParities : list (string * bool) :=
  [("none", true); ("even", true); ("odd", true)].

Fixpoint mapLookup (m : list (string * bool)) (k : string) : bool :=
  match m with
  | [] => false
  | (k', v) :: m' => if String.eqb k k' then v else mapLookup m' k
  end.

Definition validateConfig (config : Config) : option string :=
  if (Count config <? 1) || (Count config >? 125) then
    Some "count must be between 1 and 125"
  else if (SlaveID config <? 0) || (SlaveID config >? 255) then
    Some "slave address must be between 0 and 255"
  else if (Baudrate config <? 1200) || (Baudrate config >? 921600) then
    Some "baudrate must be between 1200 and 921600"
  else if negb (Databits config =? 7) && negb (Databits config =? 8) then
    Some "databits must be 7 or 8"
  else if negb (Stopbits config =? 1) && negb (Stopbits config =? 2) then
    Some "stopbits must be 1 or 2"
  else if negb (mapLookup validParities (Parity config)) then
    Some "parity must be none, even, or odd"
  else if PollRate config <? 10 * Millisecond then
    Some "poll rate must be at least 10ms"
  else if (Timeout config <? 10 * Millisecond) || (Timeout config >? 10 * Second) then
    Some "timeout must be between 0.01 and 10.00 seconds"
  else None.

(** One pass of the body of the [for i < len(args)] loop. *)
Inductive parseStep : Type :=
| Next (i : nat) (config : Config)   (* back to the loop test *)
| Fail (msg : string)                (* [return nil, err] *)
| Exit (code : Z).                   (* [os.Exit(code)] *)

Definition isOpt (arg short long : string) : bool :=
  String.eqb arg short || String.eqb arg long.

(** [if i+1 >= len(args) { return nil, missing value }], then the body
    with [args[i+1]]. *)
Definition withValue (args : list string) (i : nat) (arg : string)
    (body : string -> parseStep) : parseStep :=
  match nth_error args (i + 1) with
  | None => Fail ("missing value for " ++ arg)
  | Some v => body v
  end.

(** [strconv.Atoi] on the value, then the body with the number. *)
Definition withInt (what v : string) (body : Z -> parseStep) : parseStep :=
  match Atoi v with
  | Err e => Fail ("invalid " ++ what ++ ": " ++ e)
  | Ok n => body n
  end.

(** The loops that append every token of [tokens], parsed, to the write
    values, and stop at the first token that does not parse. *)
Fixpoint parseValues (tokens : list string) (values : list float64)
    : result (list float64) :=
  match tokens with
  | [] => Ok values
  | t :: rest =>
      match ParseFloat F t with
      | Err _ => Err ("invalid write value: " ++ t)
      | Ok val => parseValues rest (values ++ [val])%list
      end
  end.

Definition parseArg (args : list string) (i : nat) (arg : string)
    (config : Config) : parseStep :=
  if isOpt arg "-m" "--mode" then
    withValue args i arg (fun v => Next (i + 2) (set_Mode v config))
  else if isOpt arg "-a" "--address" then
    withValue args i arg (fun v =>
      let addrStr :=
        if containsByte "," v || containsByte ":" v
        then firstField "," v else v in
      withInt "slave address" addrStr (fun addr =>
        Next (i + 2) (set_SlaveID addr config)))
  else if isOpt arg "-r" "--reference" then
    withValue args i arg (fun v =>
      withInt "reference" v (fun ref => Next (i + 2) (set_StartRef ref config)))
  else if isOpt arg "-c" "--count" then
    withValue args i arg (fun v =>
      withInt "count" v (fun count => Next (i + 2) (set_Count count config)))
  else if isOpt arg "-t" "--type" then
    withValue args i arg (fun v => Next (i + 2) (set_DataType v config))
  else if isOpt arg "-0" "--zero-based" then
    Next (i + 1) (set_ZeroBased true config)
  else if isOpt arg "-B" "--big-endian" then
    Next (i + 1) (set_BigEndian true config)
  else if isOpt arg "-1" "--once" then
    Next (i + 1) (set_PollOnce true config)
  else if isOpt arg "-l" "--poll-rate" then
    withValue args i arg (fun v =>
      withInt "poll rate" v (fun rate =>
        Next (i + 2) (set_PollRate (Go.mul rate Millisecond) config)))
  else if isOpt arg "-o" "--timeout" then
    withValue args i arg (fun v =>
      match ParseFloat F v with
      | Err e => Fail ("invalid timeout: " ++ e)
      | Ok timeout =>
          Next (i + 2) (set_Timeout (secondsToDuration F timeout) config)
      end)
  else if isOpt arg "-p" "--port" then
    withValue args i arg (fun v =>
      withInt "port" v (fun port => Next (i + 2) (set_Port port config)))
  else if isOpt arg "-b" "--baudrate" then
    withValue args i arg (fun v =>
      withInt "baudrate" v (fun baudrate =>
        Next (i + 2) (set_Baudrate baudrate config)))
  else if isOpt arg "-d" "--databits" then
    withValue args i arg (fun v =>
      withInt "databits" v (fun databits =>
        Next (i + 2) (set_Databits databits config)))
  else if isOpt arg "-s" "--stopbits" then
    withValue args i arg (fun v =>
      withInt "stopbits" v (fun stopbits =>
        Next (i + 2) (set_Stopbits stopbits config)))
  else if isOpt arg "-P" "--parity" then
    withValue args i arg (fun v => Next (i + 2) (set_Parity v config))
  else if isOpt arg "-v" "--verbose" then
    Next (i + 1) (set_Verbose true config)
  else if isOpt arg "-h" "--help" then Exit 0
  else if isOpt arg "-V" "--version" then Exit 0
  else if String.eqb arg "--" then
    (* the write values start here; the [break] that follows the inner
       loop leaves the [switch], and [i] is as it was *)
    match parseValues (skipn (i + 1) args) [] with
    | Err e => Fail e
    | Ok values => Next i (set_WriteValues values config)
    end
  else if String.prefix "-" arg then
    Fail ("unknown option: " ++ arg)
  else if String.eqb (Host config) EmptyString
          && String.eqb (Device config) EmptyString then
    if String.eqb (Mode config) "tcp"
    then Next (i + 1) (set_Host arg config)
    else Next (i + 1) (set_Device arg config)
  else if (length (WriteValues config) =? 0)%nat then
    (* the inner loop runs [i] up to [len(args)] *)
    match parseValues (skipn i args) (WriteValues config) with
    | Err e => Fail e
    | Ok values => Next (length args + 1) (set_WriteValues values config)
    end
  else Next (i + 1) config.

(** What follows the loop: the missing-target check and validation. *)
Definition finishArgs (config : Config) : result Config :=
  if String.eqb (Host config) EmptyString
     && String.eqb (Device config) EmptyString
  then Err "device or host parameter missing ! Try -h for help"
  else match validateConfig config with
       | Some e => Err e
       | None => Ok config
       end.

(** The loop [for i < len(args)], run for at most [fuel] tests of its
    condition. *)
Fixpoint parseLoop (fuel : nat) (args : list string) (i : nat)
    (config : Config) : outcome (result Config) :=
  match fuel with
  | O => OutOfFuel
  | S fuel' =>
      match nth_error args i with
      | None => Returned (finishArgs config)
      | Some arg =>
          match parseArg args i arg config with
          | Next i' config' => parseLoop fuel' args i' config'
          | Fail e => Returned (Err e)
          | Exit code => Exited code
          end
      end
  end.

(** [parseArgs], with [args = os.Args[1:]]. *)
Definition parseArgs (fuel : nat) (args : list string)
    : outcome (result Config) :=
  parseLoop fuel args 0 defaultConfig.

(** *** Transport selector *)

(** The [modbus.ClientConfiguration] that [setupClient] builds; a field
    it leaves out is zero. *)
Record ClientConfiguration : Type := {
  URL : string;
  Speed : Z;
  DataBits : Z;
  StopBits : Z;
  ClientTimeout : Z
}.

Definition networkURL (scheme : string) (config : Config) : string :=
  scheme ++ "://" ++ Host config ++ ":" ++ itoa (Port config).

(** [setupClient] up to its call of [modbus.NewClient]: the configuration
    it hands to [NewClient], or the unsupported-mode error. [Ok] says that
    a configuration was built, not that a client was; the call itself,
    whose error [setupClient] returns, is made where there is a library to
    call, in [setupSession] and [run]. *)
Definition setupClient (config : Config) : result ClientConfiguration :=
  let network (scheme : string) (speed : Z) :=
    Ok {| URL := networkURL scheme config; Speed := speed; DataBits := 0;
          StopBits := 0; ClientTimeout := Timeout config |} in
  if String.eqb (Mode config) "tcp" then network "tcp" 0
  else if String.eqb (Mode config) "tls" then network "tls" 0
  else if String.eqb (Mode config) "udp" then network "udp" 0
  else if String.eqb (Mode config) "rtu" then
    Ok {| URL := "rtu://" ++ Device config;
          Speed := uint64 (Baudrate config);
          DataBits := uint64 (Databits config);
          StopBits := uint64 (Stopbits config);
          ClientTimeout := Timeout config |}
  else if String.eqb (Mode config) "rtuovertcp" then
    network "rtuovertcp" (uint64 (Baudrate config))
  else if String.eqb (Mode config) "rtuoverudp" then
    network "rtuoverudp" (uint64 (Baudrate config))
  else
    Err ("unsupported mode: " ++ Mode config
         ++ " (supported: tcp, tls, udp, rtu, rtuovertcp, rtuoverudp)").

End Parser.

(** ** Wide-value codec *)

(** Write path: [high<<16 | low], or [low<<16 | high], on [uint32]. *)
Definition combineUint32 (bigEndian : bool) (high low : Z) : Z :=
  if bigEndian then Z.lor (uint32 (Z.shiftl high 16)) low
  else Z.lor (uint32 (Z.shiftl low 16)) high.

(** Read path, [:int]: [int32(registers[i])<<16 | int32(registers[i+1])],
    or the two the other way round, on [int32]. *)
Definition wideInt32 (bigEndian : bool) (first second : Z) : Z :=
  if bigEndian then Z.lor (int32 (Z.shiftl (int32 first) 16)) (int32 second)
  else Z.lor (int32 (Z.shiftl (int32 second) 16)) (int32 first).

(** Read path, [:float]: the same on [uint32], then [Float32frombits]. *)
Definition wideFloat32 (bigEndian : bool) (first second : Z) : float32 :=
  Float32frombits
    (if bigEndian
     then Z.lor (uint32 (Z.shiftl (uint32 first) 16)) (uint32 second)
     else Z.lor (uint32 (Z.shiftl (uint32 second) 16)) (uint32 first)).

(** ** Operation dispatcher and poll loop *)

Definition boolToInt (b : bool) : Z := if b then 1 else 0.

(** [for i, x := range l]: the elements with their indices. *)
Definition indexed {A : Type} (l : list A) : list (nat * A) :=
  combine (seq 0 (length l)) l.

Section Dispatcher.

Context {float64 : Type} (F : Float64Ops float64).
Context {session : Type} (client : ModbusClient session).

(** The receiver's [m.config]. *)
Variable config : Config float64.

(** An [error] result ([None] is [nil]), the session after the calls made
    and what happened, in order. *)
Definition effect : Type := (option string * session * list event)%type.

Definition dataTypeIn (names : list string) : bool :=
  existsb (String.eqb (DataType config)) names.

Definition lastRef (startRef : Z) : Z :=
  Go.add (Go.add startRef (Count config)) (-1).

Definition bitLines (startRef : Z) (bits : list bool) : list line :=
  map (fun '(i, b) => LValue (Go.add startRef (Z.of_nat i)) (boolToInt b))
      (indexed bits).

Definition readCoils (startRef : Z) (s : session) : effect :=
  let req := ReqReadCoils (uint16 startRef) (uint16 (Count config)) in
  match ReadCoils client s (uint16 startRef) (uint16 (Count config)) with
  | (Err e, s') => (Some ("failed to read coils: " ++ e), s', [Call req])
  | (Ok coils, s') =>
      (None, s',
       Call req
         :: map Print (LHeader "Coils" startRef (lastRef startRef)
                         :: bitLines startRef coils))
  end.

Definition readDiscreteInputs (startRef : Z) (s : session) : effect :=
  let req := ReqReadDiscreteInputs (uint16 startRef) (uint16 (Count config)) in
  match ReadDiscreteInputs client s (uint16 startRef) (uint16 (Count config)) with
  | (Err e, s') => (Some ("failed to read discrete inputs: " ++ e), s', [Call req])
  | (Ok inputs, s') =>
      (None, s',
       Call req
         :: map Print (LHeader "Discrete Inputs" startRef (lastRef startRef)
                         :: bitLines startRef inputs))
  end.

(** The annotation of the line of [registers[i]]. The [i++] in the wide
    branches assigns the iteration variable of the [range] loop, which the
    next iteration sets again: every register keeps its own line. *)
Definition annotate (registers : list Z) (i : nat) (reg : Z) : annotation :=
  if dataTypeIn ["3:hex"; "4:hex"] then AnnHex reg
  else if dataTypeIn ["3:int"; "4:int"] then
    if (i mod 2 =? 0)%nat && (i + 1 <? length registers)%nat
    then AnnInt32 (wideInt32 (BigEndian config) (nth i registers 0)
                             (nth (i + 1) registers 0))
    else NoAnnotation
  else if dataTypeIn ["3:float"; "4:float"] then
    if (i mod 2 =? 0)%nat && (i + 1 <? length registers)%nat
    then AnnFloat32 (wideFloat32 (BigEndian config) (nth i registers 0)
                                 (nth (i + 1) registers 0))
    else NoAnnotation
  else NoAnnotation.

Definition printRegisters (startRef : Z) (registers : list Z)
      (regType : string) : list line :=
  LHeader regType startRef (lastRef startRef)
    :: map (fun '(i, reg) =>
              LRegister (Go.add startRef (Z.of_nat i)) reg
                        (annotate registers i reg))
           (indexed registers).

Definition readInputRegisters (startRef : Z) (s : session) : effect :=
  let req := ReqReadRegisters (uint16 startRef) (uint16 (Count config)) INPUT_REGISTER in
  match ReadRegisters client s (uint16 startRef) (uint16 (Count config)) INPUT_REGISTER with
  | (Err e, s') => (Some ("failed to read input registers: " ++ e), s', [Call req])
  | (Ok registers, s') =>
      (None, s',
       Call req :: map Print (printRegisters startRef registers "Input Registers"))
  end.

Definition readHoldingRegisters (startRef : Z) (s : session) : effect :=
  let req := ReqReadRegisters (uint16 startRef) (uint16 (Count config)) HOLDING_REGISTER in
  match ReadRegisters client s (uint16 startRef) (uint16 (Count config)) HOLDING_REGISTER with
  | (Err e, s') => (Some ("failed to read holding registers: " ++ e), s', [Call req])
  | (Ok registers, s') =>
      (None, s',
       Call req
         :: map Print (printRegisters startRef registers "Holding Registers"))
  end.

Definition writeCoils (startRef : Z) (s : session) : effect :=
  if (length (WriteValues config) =? 0)%nat then
    (Some "no values to write", s, [])
  else
    let coils := map (nonZero F) (WriteValues config) in
    let req := ReqWriteCoils (uint16 startRef) coils in
    match WriteCoils client s (uint16 startRef) coils with
    | (Some e, s') => (Some ("failed to write coils: " ++ e), s', [Call req])
    | (None, s') =>
        (None, s',
         Call req
           :: map Print (LWrote (length coils) "coil(s)" startRef
                           :: bitLines startRef coils))
    end.

(** The loop [for i := 0; i < len(values); i += 2] over an even number of
    write values: one combined 32-bit pattern per pair. *)
Fixpoint widePairs (values : list float64) : list Z :=
  match values with
  | high :: low :: rest =>
      combineUint32 (BigEndian config) (toUint32 F high) (toUint32 F low)
        :: widePairs rest
  | _ => []
  end.

Definition writeHoldingRegisters (startRef : Z) (s : session) : effect :=
  if (length (WriteValues config) =? 0)%nat then
    (Some "no values to write", s, [])
  else if String.eqb (DataType config) "4" then
    let registers := map (toUint16 F) (WriteValues config) in
    let req := ReqWriteRegisters (uint16 startRef) registers in
    match WriteRegisters client s (uint16 startRef) registers with
    | (Some e, s') =>
        (Some ("failed to write holding registers: " ++ e), s', [Call req])
    | (None, s') =>
        (None, s',
         Call req
           :: map Print
                (LWrote (length registers) "16-bit register(s)" startRef
                   :: map (fun '(i, reg) =>
                             LValue (Go.add startRef (Z.of_nat i)) reg)
                          (indexed registers)))
    end
  else if String.eqb (DataType config) "4:int" then
    if negb (length (WriteValues config) mod 2 =? 0)%nat then
      (Some "32-bit integers require even number of values", s, [])
    else
      let values := widePairs (WriteValues config) in
      let req := ReqWriteUint32s (uint16 startRef) values in
      match WriteUint32s client s (uint16 startRef) values with
      | (Some e, s') =>
          (Some ("failed to write 32-bit integers: " ++ e), s', [Call req])
      | (None, s') =>
          (None, s',
           Call req
             :: map Print
                  (LWrote (length values) "32-bit integer(s)" startRef
                     :: map (fun '(i, val) =>
                               LValue (Go.add startRef (Go.mul (Z.of_nat i) 2)) val)
                            (indexed values)))
      end
  else if String.eqb (DataType config) "4:float" then
    if negb (length (WriteValues config) mod 2 =? 0)%nat then
      (Some "32-bit floats require even number of values", s, [])
    else
      let values := map Float32frombits (widePairs (WriteValues config)) in
      let req := ReqWriteFloat32s (uint16 startRef) values in
      match WriteFloat32s client s (uint16 startRef) values with
      | (Some e, s') =>
          (Some ("failed to write 32-bit floats: " ++ e), s', [Call req])
      | (None, s') =>
          (None, s',
           Call req
             :: map Print
                  (LWrote (length values) "32-bit float(s)" startRef
                     :: map (fun '(i, val) =>
                               LFloat (Go.add startRef (Go.mul (Z.of_nat i) 2)) val)
                            (indexed values)))
      end
  else
    (* no case of the [switch] matches *)
    (None, s, []).

Definition performOperation (startRef : Z) (s : session) : effect :=
  if dataTypeIn ["0"] then readCoils startRef s
  else if dataTypeIn ["1"] then readDiscreteInputs startRef s
  else if dataTypeIn ["3"; "3:hex"; "3:int"; "3:float"] then
    readInputRegisters startRef s
  else if dataTypeIn ["4"; "4:hex"; "4:int"; "4:float"] then
    readHoldingRegisters startRef s
  else (Some ("unsupported data type: " ++ DataType config), s, []).

Definition performWriteOperation (startRef : Z) (s : session) : effect :=
  if (length (WriteValues config) =? 0)%nat then
    (Some "no write values provided", s, [])
  else if dataTypeIn ["0"] then writeCoils startRef s
  else if dataTypeIn ["4"; "4:hex"; "4:int"; "4:float"] then
    writeHoldingRegisters startRef s
  else
    (Some ("write operations not supported for data type: " ++ DataType config),
     s, []).

Definition getParityChar : ascii :=
  if String.eqb (Parity config) "none" then "N"%char
  else if String.eqb (Parity config) "even" then "E"%char
  else if String.eqb (Parity config) "odd" then "O"%char
  else "E"%char.

Definition printConfig : list line :=
  [ LProtocol (Mode config);
    LSlave (SlaveID config);
    LDataType (DataType config);
    LCommunication (Device config) (Baudrate config) (Databits config)
                   getParityChar (Stopbits config);
    LTimeout (Timeout config);
    LPollRate (PollRate config) ].

(** The read loop of [execute], run for at most [fuel] iterations. *)
Fixpoint pollLoop (fuel : nat) (startRef : Z) (s : session)
      : outcome (option string) * session * list event :=
  match fuel with
  | O => (OutOfFuel, s, [])
  | S fuel' =>
      match performOperation startRef s with
      | (Some err, s', evs) => (Returned (Some err), s', evs)
      | (None, s', evs) =>
          if PollOnce config then (Returned None, s', evs)
          else
            let '(r, s'', evs') := pollLoop fuel' startRef s' in
            (r, s'', (evs ++ Sleep (PollRate config) :: evs')%list)
      end
  end.

(** The start reference that [execute] hands to the operations. *)
Definition executeStartRef : Z :=
  if ZeroBased config then 0 else StartRef config.

Definition execute (fuel : nat) (s : session)
      : outcome (option string) * session * list event :=
  let startRef := executeStartRef in
  let verbose := map Print (if Verbose config then printConfig else []) in
  if (0 <? length (WriteValues config))%nat then
    let '(err, s', evs) := performWriteOperation startRef s in
    (Returned err, s', (verbose ++ evs)%list)
  else
    let '(r, s', evs) := pollLoop fuel startRef s in
    (r, s', (verbose ++ evs)%list).

End Dispatcher.

(** ** A runtime and a client to run the program on *)

(** The [float64] values that are integers of magnitude at most [10^6],
    given by that integer: on these the conversions are exact.
    [ParseFloat] reads the plain decimal integer literals of that range
    and refuses every other token; the examples below only use tokens on
    which this is what [strconv.ParseFloat] does. *)
Definition integerFloat : Float64Ops Z :=
  {| ParseFloat := fun s =>
       match Atoi s with
       | Ok n =>
           if (Z.abs n <=? 1000000) then Ok n
           else Err "strconv.ParseFloat: out of the range of this model"
       | Err _ => Err "strconv.ParseFloat: invalid syntax"
       end;
     nonZero := fun v => negb (v =? 0);
     toUint16 := uint16;
     toUint32 := uint32;
     secondsToDuration := fun v => v * Second |}.

(** A client whose session counts the requests it has served. It answers
    a read with [quantity] zeros and accepts every write, except that
    the request numbered [failAt] (from 0), if any, times out. *)
Definition stubFails (failAt : option nat) (served : nat) : bool :=
  match failAt with
  | Some k => (served =? k)%nat
  | None => false
  end.

Definition stubRead {A : Type} (failAt : option nat) (zero : A)
      (served : nat) (quantity : Z) : result (list A) * nat :=
  if stubFails failAt served then (Err "request timed out", S served)
  else (Ok (repeat zero (Z.to_nat quantity)), S served).

Definition stubWrite (failAt : option nat) (served : nat) : option string * nat :=
  if stubFails failAt served then (Some "request timed out", S served)
  else (None, S served).

Definition stubClient (failAt : option nat) : ModbusClient nat :=
  {| ReadCoils := fun s _ quantity => stubRead failAt false s quantity;
     ReadDiscreteInputs := fun s _ quantity => stubRead failAt false s quantity;
     ReadRegisters := fun s _ quantity _ => stubRead failAt 0 s quantity;
     WriteCoils := fun s _ _ => stubWrite failAt s;
     WriteRegisters := fun s _ _ => stubWrite failAt s;
     WriteUint32s := fun s _ _ => stubWrite failAt s;
     WriteFloat32s := fun s _ _ => stubWrite failAt s |}.

(** ** Reading a run *)

(** The requests, and the sleeps, among the events of a run. *)
Fixpoint requests (evs : list event) : list request :=
  match evs with
  | [] => []
  | Call r :: evs' => r :: requests evs'
  | _ :: evs' => requests evs'
  end.

Fixpoint sleeps (evs : list event) : list Z :=
  match evs with
  | [] => []
  | Sleep d :: evs' => d :: sleeps evs'
  | _ :: evs' => sleeps evs'
  end.

(** The lines that echo one written unit. *)
Definition isEcho (l : line) : bool :=
  match l with
  | LValue _ _ | LFloat _ _ => true
  | _ => false
  end.

(** The parts of what an operation or a run returns. *)
Definition resultOf {A S : Type} (x : A * S * list event) : A := fst (fst x).
Definition sessionOf {A S : Type} (x : A * S * list event) : S := snd (fst x).
Definition eventsOf {A S : Type} (x : A * S * list event) : list event := snd x.

Section Rounds.

Context {float64 : Type} {session : Type} (client : ModbusClient session).
Variable config : Config float64.
Variable startRef : Z.

(** [Rounds n s evs s']: from session [s], [n] reads in a row succeed,
    each followed by a sleep of [PollRate]; [evs] is what happened and
    [s'] the session the next read starts from. *)
Inductive Rounds : nat -> session -> list event -> session -> Prop :=
| RoundsO (s : session) : Rounds O s [] s
| RoundsS (n : nat) (s s1 s2 : session) (evs evs' : list event) :
    performOperation client config startRef s = (None, s1, evs) ->
    Rounds n s1 evs' s2 ->
    Rounds (S n) s (evs ++ Sleep (PollRate config) :: evs')%list s2.

End Rounds.

(** ** The words of the specification *)

Section Specification.

Context {float64 : Type}.

Local Abbreviation Config := (Config float64).

(** The eight constraints of the validation pass. *)
Definition CountOk (c : Config) : Prop := 1 <= Count c <= 125.
Definition SlaveOk (c : Config) : Prop := 0 <= SlaveID c <= 255.
Definition BaudOk (c : Config) : Prop := 1200 <= Baudrate c <= 921600.
Definition DatabitsOk (c : Config) : Prop := Databits c = 7 \/ Databits c = 8.
Definition StopbitsOk (c : Config) : Prop := Stopbits c = 1 \/ Stopbits c = 2.
Definition ParityOk (c : Config) : Prop :=
  Parity c = "none" \/ Parity c = "even" \/ Parity c = "odd".
Definition PollRateOk (c : Config) : Prop := 10 * Millisecond <= PollRate c.
Definition TimeoutOk (c : Config) : Prop :=
  10 * Millisecond <= Timeout c <= 10 * Second.

Variable F : Float64Ops float64.

(** [Reaches args i c]: the loop of [parseArgs] on [args] comes to test
    its condition with index [i] and configuration [c]. *)
Inductive Reaches (args : list string) : nat -> Config -> Prop :=
| ReachesStart : Reaches args 0 defaultConfig
| ReachesNext (i i' : nat) (c c' : Config) (arg : string) :
    Reaches args i c ->
    nth_error args i = Some arg ->
    parseArg F args i arg c = Next i' c' ->
    Reaches args i' c'.

End Specification.

(** What one operation of the dispatcher leaves behind: nothing, or one
    request, a write or a read as [write] says, to the address [addr],
    then output. *)
Inductive OperationTrace (write : bool) (addr : Z) : list event -> Prop :=
| NoRequest : OperationTrace write addr []
| OneRequest (req : request) (lines : list line) :
    isWrite req = write ->
    requestAddr req = addr ->
    OperationTrace write addr (Call req :: map Print lines).

(** ** Case analysis on the program *)

(** Splits one pass of the parser's loop body into its branches. *)
Ltac parse_cases :=
  unfold parseArg, withValue, withInt;
  repeat match goal with
    | |- context [if ?b then _ else _] => destruct b eqn:?
    | |- context [match ?x with _ => _ end] => destruct x eqn:?
    end.

(** Splits an operation on its tests and on the answers of the client. *)
Ltac operation_cases :=
  repeat match goal with
    | |- context [if ?b then _ else _] => destruct b eqn:?
    | |- context [match ?x with _ => _ end] =>
        first [ destruct x as [[? | ?] ?] eqn:? | destruct x as [[? | ] ?] eqn:? ]
    end.

(** ** The session around a run: [connect] and [run] *)

(** [uint8(v)] on an [int]. *)
Definition uint8 (z : Z) : Z := z mod 2 ^ 8.

(** [modbus.BIG_ENDIAN], [modbus.LITTLE_ENDIAN] and the word orders. *)
Inductive Endianness : Type := BIG_ENDIAN | LITTLE_ENDIAN.
Inductive WordOrder : Type := HIGH_WORD_FIRST | LOW_WORD_FIRST.

(** Modelled from the spec: how the wide writes of the client library
    ([WriteUint32s], [WriteFloat32s]) lay a 32-bit value out over two
    registers; the library is not under [src/]. By the glossary, the word
    order is which of the two transmitted 16-bit words is the most
    significant half of a wide value: with [HIGH_WORD_FIRST] the first
    register (the one at the lower address) holds the high half, with
    [LOW_WORD_FIRST] it holds the low half. The pair is (first register,
    second register). *)
Definition registerWords (order : WordOrder) (bits : Z) : Z * Z :=
  match order with
  | HIGH_WORD_FIRST => (Z.shiftr bits 16, Z.land bits 65535)
  | LOW_WORD_FIRST => (Z.land bits 65535, Z.shiftr bits 16)
  end.

(** The rest of the client library that the program calls:
    [modbus.NewClient] and the methods [Open], [SetUnitId], [SetEncoding]
    and [Close]. What the last three return is dropped by the program. *)
Record Transport (session : Type) : Type := {
  NewClient : ClientConfiguration -> result session;
  Open : session -> option string * session;
  SetUnitId : session -> Z -> session;
  SetEncoding : session -> Endianness -> WordOrder -> session;
  Close : session -> session
}.
Arguments NewClient {session} _ _.
Arguments Open {session} _ _.
Arguments SetUnitId {session} _ _ _.
Arguments SetEncoding {session} _ _ _ _.
Arguments Close {session} _ _.

(** What a whole run does to the library, in order. *)
Inductive runEvent : Type :=
| RNewClient (cc : ClientConfiguration)
| ROpen
| RSetUnitId (id : Z)
| RSetEncoding (endian : Endianness) (order : WordOrder)
| ROp (ev : event)
| RClose.

Section Run.

Context {float64 : Type} (F : Float64Ops float64).
Context {session : Type} (client : ModbusClient session).
Variable transport : Transport session.

Definition connect (config : Config float64) (s : session)
    : option string * session * list runEvent :=
  match Open transport s with
  | (Some e, s') => (Some ("failed to connect: " ++ e), s', [ROpen])
  | (None, s') =>
      let id := uint8 (SlaveID config) in
      let s1 := SetUnitId transport s' id in
      let endian := if negb (BigEndian config) then LITTLE_ENDIAN
                    else BIG_ENDIAN in
      let s2 := SetEncoding transport s1 endian LOW_WORD_FIRST in
      (None, s2, [ROpen; RSetUnitId id; RSetEncoding endian LOW_WORD_FIRST])
  end.


(** [run]: [parseArgs], [setupClient] with its call of [NewClient],
    [connect], then [execute] with the deferred [Close]. The two loops get
    [parseFuel] and [execFuel] passes. *)
Definition run (parseFuel execFuel : nat) (args : list string)
    : outcome (option string) * list runEvent :=
  match parseArgs F parseFuel args with
  | OutOfFuel => (OutOfFuel, [])
  | Exited code => (Exited code, [])
  | Returned (Err e) => (Returned (Some e), [])
  | Returned (Ok config) =>
      match setupClient config with
      | Err e => (Returned (Some e), [])
      | Ok cc =>
          match NewClient transport cc with
          | Err e => (Returned (Some e), [RNewClient cc])
          | Ok s =>
              match connect config s with
              | (Some e, _, log) => (Returned (Some e), RNewClient cc :: log)
              | (None, s1, log) =>
                  let '(r, s2, evs) := execute F client config execFuel s1 in
                  let done := (RNewClient cc :: log ++ map ROp evs)%list in
                  match r with
                  | Returned err => (Returned err, (done ++ [RClose])%list)
                  | Exited code => (Exited code, done)
                  | OutOfFuel => (OutOfFuel, done)
                  end
              end
          end
      end
  end.

End Run.

(** A library for the examples: [NewClient] gives the session 0, [Open]
    fails when [refuse] is set, and the settings leave the session as it
    is. *)
Definition stubTransport (refuse : bool) : Transport nat :=
  {| NewClient := fun _ => Ok 0%nat;
     Open := fun s =>
       if refuse then (Some "connection refused", s) else (None, s);
     SetUnitId := fun s _ => s;
     SetEncoding := fun s _ _ => s;
     Close := fun s => s |}.

(** ** The options of the command line *)

(** The options that take the next token as their value. *)
Definition valuedOptions : list string :=
  ["-m"; "--mode"; "-a"; "--address"; "-r"; "--reference"; "-c"; "--count";
   "-t"; "--type"; "-l"; "--poll-rate"; "-o"; "--timeout"; "-p"; "--port";
   "-b"; "--baudrate"; "-d"; "--databits"; "-s"; "--stopbits";
   "-P"; "--parity"].

(** The flags, and the two that leave the program. *)
Definition flagOptions : list string :=
  ["-0"; "--zero-based"; "-B"; "--big-endian"; "-1"; "--once";
   "-v"; "--verbose"].

Definition exitOptions : list string :=
  ["-h"; "--help"; "-V"; "--version"].

Definition optionNames : list string :=
  (valuedOptions ++ flagOptions ++ exitOptions)%list.


(** Two runs for the examples, against the stub library and client:
    [-1 host], one read of the default register, and [host], which polls
    and is given two passes of the loop. *)
Definition exampleRunOnce : outcome (option string) * list runEvent :=
  run integerFloat (stubClient None) (stubTransport false) 5 1 ["-1"; "host"].

Definition exampleRunPolling : outcome (option string) * list runEvent :=
  run integerFloat (stubClient None) (stubTransport false) 5 2 ["host"].

(** * Properties *)

(** ** Validation *)

Lemma range_test (a lo hi : Z) :
  (a <? lo) || (a >? hi) = false <-> lo <= a <= hi.
Proof.
  rewrite Z.gtb_ltb, orb_false_iff, !Z.ltb_ge. lia.
Qed.

Lemma either_test (a x y : Z) :
  negb (a =? x) && negb (a =? y) = false <-> a = x \/ a = y.
Proof.
  destruct (Z.eqb_spec a x), (Z.eqb_spec a y); cbn; intuition discriminate.
Qed.

Lemma validParities_spec (p : string) :
  negb (mapLookup validParities p) = false
  <-> p = "none" \/ p = "even" \/ p = "odd".
Proof.
  unfold validParities; cbn [mapLookup].
  destruct (String.eqb_spec p "none") as [-> | Hn]; [cbn; intuition | ].
  destruct (String.eqb_spec p "even") as [-> | He]; [cbn; intuition | ].
  destruct (String.eqb_spec p "odd") as [-> | Ho]; [cbn; intuition | ].
  cbn; split; [discriminate | intuition].
Qed.

Section ValidationProperties.

Context {float64 : Type}.

Local Abbreviation Config := (Config float64).

(** Each test of [validateConfig] decides the negation of a constraint. *)
Lemma constraints_decided (c : Config) :
  (CountOk c <-> (Count c <? 1) || (Count c >? 125) = false) /\
  (SlaveOk c <-> (SlaveID c <? 0) || (SlaveID c >? 255) = false) /\
  (BaudOk c <-> (Baudrate c <? 1200) || (Baudrate c >? 921600) = false) /\
  (DatabitsOk c <-> negb (Databits c =? 7) && negb (Databits c =? 8) = false) /\
  (StopbitsOk c <-> negb (Stopbits c =? 1) && negb (Stopbits c =? 2) = false) /\
  (ParityOk c <-> negb (mapLookup validParities (Parity c)) = false) /\
  (PollRateOk c <-> (PollRate c <? 10 * Millisecond) = false) /\
  (TimeoutOk c <->
     (Timeout c <? 10 * Millisecond) || (Timeout c >? 10 * Second) = false).
Proof.
  rewrite !range_test, !either_test, validParities_spec, Z.ltb_ge.
  unfold CountOk, SlaveOk, BaudOk, DatabitsOk, StopbitsOk, ParityOk,
    PollRateOk, TimeoutOk.
  tauto.
Qed.

Lemma validateConfig_accepts (c : Config) :
  validateConfig c = None <->
  CountOk c /\ SlaveOk c /\ BaudOk c /\ DatabitsOk c /\ StopbitsOk c /\
  ParityOk c /\ PollRateOk c /\ TimeoutOk c.
Proof.
  destruct (constraints_decided c)
    as (-> & -> & -> & -> & -> & -> & -> & ->).
  unfold validateConfig.
  repeat match goal with
    | |- context [if ?b then _ else _] =>
        destruct b; [split; [discriminate | intuition discriminate] | ]
    end.
  intuition.
Qed.

Lemma validateConfig_first_violation (c : Config) :
  (~ CountOk c ->
   validateConfig c = Some "count must be between 1 and 125") /\
  (CountOk c -> ~ SlaveOk c ->
   validateConfig c = Some "slave address must be between 0 and 255") /\
  (CountOk c -> SlaveOk c -> ~ BaudOk c ->
   validateConfig c = Some "baudrate must be between 1200 and 921600") /\
  (CountOk c -> SlaveOk c -> BaudOk c -> ~ DatabitsOk c ->
   validateConfig c = Some "databits must be 7 or 8") /\
  (CountOk c -> SlaveOk c -> BaudOk c -> DatabitsOk c -> ~ StopbitsOk c ->
   validateConfig c = Some "stopbits must be 1 or 2") /\
  (CountOk c -> SlaveOk c -> BaudOk c -> DatabitsOk c -> StopbitsOk c ->
   ~ ParityOk c ->
   validateConfig c = Some "parity must be none, even, or odd") /\
  (CountOk c -> SlaveOk c -> BaudOk c -> DatabitsOk c -> StopbitsOk c ->
   ParityOk c -> ~ PollRateOk c ->
   validateConfig c = Some "poll rate must be at least 10ms") /\
  (CountOk c -> SlaveOk c -> BaudOk c -> DatabitsOk c -> StopbitsOk c ->
   ParityOk c -> PollRateOk c -> ~ TimeoutOk c ->
   validateConfig c = Some "timeout must be between 0.01 and 10.00 seconds").
Proof.
  destruct (constraints_decided c)
    as (-> & -> & -> & -> & -> & -> & -> & ->).
  unfold validateConfig.
  repeat split; intros;
    repeat match goal with
      | H : ?b = false |- context [if ?b then _ else _] => rewrite H
      | H : ~ ?b = false |- context [if ?b then _ else _] =>
          destruct b; [reflexivity | contradiction H; reflexivity]
      end.
Qed.

(** C8. Validation accepts a configuration exactly when the eight
    constraints hold (count in 1..125, slave address in 0..255, baud rate
    in 1200..921600, 7 or 8 data bits, 1 or 2 stop bits, parity none, even
    or odd, poll rate at least 10 ms, timeout from 10 ms to 10 s); it
    returns at the first constraint violated, in that order, with the
    error that names its legal range; with the other fields at their
    defaults, counts 0 and 126 and baud rates 1199 and 921601 fail, counts
    1 and 125 and baud rates 1200 and 921600 pass. *)
Theorem validateConfig_constraints :
  (forall c : Config,
     validateConfig c = None <->
     CountOk c /\ SlaveOk c /\ BaudOk c /\ DatabitsOk c /\ StopbitsOk c /\
     ParityOk c /\ PollRateOk c /\ TimeoutOk c) /\
  (forall c : Config,
     (~ CountOk c ->
      validateConfig c = Some "count must be between 1 and 125") /\
     (CountOk c -> ~ SlaveOk c ->
      validateConfig c = Some "slave address must be between 0 and 255") /\
     (CountOk c -> SlaveOk c -> ~ BaudOk c ->
      validateConfig c = Some "baudrate must be between 1200 and 921600") /\
     (CountOk c -> SlaveOk c -> BaudOk c -> ~ DatabitsOk c ->
      validateConfig c = Some "databits must be 7 or 8") /\
     (CountOk c -> SlaveOk c -> BaudOk c -> DatabitsOk c -> ~ StopbitsOk c ->
      validateConfig c = Some "stopbits must be 1 or 2") /\
     (CountOk c -> SlaveOk c -> BaudOk c -> DatabitsOk c -> StopbitsOk c ->
      ~ ParityOk c ->
      validateConfig c = Some "parity must be none, even, or odd") /\
     (CountOk c -> SlaveOk c -> BaudOk c -> DatabitsOk c -> StopbitsOk c ->
      ParityOk c -> ~ PollRateOk c ->
      validateConfig c = Some "poll rate must be at least 10ms") /\
     (CountOk c -> SlaveOk c -> BaudOk c -> DatabitsOk c -> StopbitsOk c ->
      ParityOk c -> PollRateOk c -> ~ TimeoutOk c ->
      validateConfig c
      = Some "timeout must be between 0.01 and 10.00 seconds")) /\
  (forall count : Z,
     validateConfig (set_Count count (@defaultConfig float64)) = None
     <-> 1 <= count <= 125) /\
  (forall baudrate : Z,
     validateConfig (set_Baudrate baudrate (@defaultConfig float64)) = None
     <-> 1200 <= baudrate <= 921600) /\
  validateConfig (set_Count 0 (@defaultConfig float64))
  = Some "count must be between 1 and 125" /\
  validateConfig (set_Count 126 (@defaultConfig float64))
  = Some "count must be between 1 and 125" /\
  validateConfig (set_Count 1 (@defaultConfig float64)) = None /\
  validateConfig (set_Count 125 (@defaultConfig float64)) = None /\
  validateConfig (set_Baudrate 1199 (@defaultConfig float64))
  = Some "baudrate must be between 1200 and 921600" /\
  validateConfig (set_Baudrate 921601 (@defaultConfig float64))
  = Some "baudrate must be between 1200 and 921600" /\
  validateConfig (set_Baudrate 1200 (@defaultConfig float64)) = None /\
  validateConfig (set_Baudrate 921600 (@defaultConfig float64)) = None.
Proof.
  split; [exact validateConfig_accepts | ].
  split; [exact validateConfig_first_violation | ].
  split.
  { intros count. rewrite validateConfig_accepts.
    unfold CountOk, SlaveOk, BaudOk, DatabitsOk, StopbitsOk, ParityOk,
      PollRateOk, TimeoutOk; cbn.
    unfold Millisecond, Second. intuition (auto; lia). }
  split.
  { intros baudrate. rewrite validateConfig_accepts.
    unfold CountOk, SlaveOk, BaudOk, DatabitsOk, StopbitsOk, ParityOk,
      PollRateOk, TimeoutOk; cbn.
    unfold Millisecond, Second. intuition (auto; lia). }
  repeat split; reflexivity.
Qed.

End ValidationProperties.
(** ** The argument parser *)

Section ParserProperties.

Context {float64 : Type} (F : Float64Ops float64).

Local Abbreviation Config := (Config float64).

Lemma parseArg_BigEndian (args : list string) (i i' : nat) (arg : string)
    (c c' : Config) :
  parseArg F args i arg c = Next i' c' ->
  BigEndian c = true -> BigEndian c' = true.
Proof.
  parse_cases; intros H Hc; inversion H; subst; cbn; auto.
Qed.

Lemma finishArgs_same (c r : Config) : finishArgs c = Ok r -> r = c.
Proof.
  unfold finishArgs.
  destruct (_ && _); [discriminate | ].
  destruct (validateConfig c); [discriminate | ].
  intros H; inversion H; reflexivity.
Qed.

Lemma parseLoop_BigEndian (fuel : nat) (args : list string) :
  forall (i : nat) (c r : Config),
    BigEndian c = true ->
    parseLoop F fuel args i c = Returned (Ok r) ->
    BigEndian r = true.
Proof.
  induction fuel as [ | fuel IH]; intros i c r Hc; cbn [parseLoop].
  - discriminate.
  - destruct (nth_error args i) as [arg | ].
    + destruct (parseArg F args i arg c) as [i' c' | e | code] eqn:Hstep;
        try discriminate.
      apply IH. eapply parseArg_BigEndian; eauto.
    + intros H. inversion H as [H1].
      apply finishArgs_same in H1. subst r. exact Hc.
Qed.

(** C9. Every configuration the argument parser returns has big-endian
    word order, so for it the codec only ever takes its big-endian
    branches, on the write path and on both read paths. *)
Theorem parseArgs_BigEndian (fuel : nat) (args : list string) (c : Config) :
  parseArgs F fuel args = Returned (Ok c) ->
  BigEndian c = true /\
  (forall high low : Z,
     combineUint32 (BigEndian c) high low
     = Z.lor (uint32 (Z.shiftl high 16)) low) /\
  (forall first second : Z,
     wideInt32 (BigEndian c) first second
     = Z.lor (int32 (Z.shiftl (int32 first) 16)) (int32 second)) /\
  (forall first second : Z,
     wideFloat32 (BigEndian c) first second
     = Float32frombits
         (Z.lor (uint32 (Z.shiftl (uint32 first) 16)) (uint32 second))).
Proof.
  intros H. apply parseLoop_BigEndian in H; [ | reflexivity].
  rewrite H. repeat split.
Qed.

(** *** The separator *)

Lemma parseArg_separator (args : list string) (i : nat) (c : Config) :
  parseArg F args i "--" c
  = match parseValues F (skipn (i + 1) args) [] with
    | Err e => Fail e
    | Ok values => Next i (set_WriteValues values c)
    end.
Proof. reflexivity. Qed.

Lemma separator_spins (args : list string) (i : nat) (values : list float64) :
  nth_error args i = Some "--" ->
  parseValues F (skipn (i + 1) args) [] = Ok values ->
  forall (fuel : nat) (c : Config), parseLoop F fuel args i c = OutOfFuel.
Proof.
  intros Hsep Hvalues fuel.
  induction fuel as [ | fuel IH]; intros c; cbn [parseLoop].
  - reflexivity.
  - rewrite Hsep, parseArg_separator, Hvalues. apply IH.
Qed.

Lemma Reaches_spins (args : list string) (i : nat) (c : Config) :
  Reaches F args i c ->
  (forall fuel, parseLoop F fuel args i c = OutOfFuel) ->
  forall fuel, parseArgs F fuel args = OutOfFuel.
Proof.
  induction 1 as [ | i i' c c' arg Hreach IH Harg Hstep]; intros Hspin.
  - exact Hspin.
  - apply IH. intros [ | fuel]; cbn [parseLoop]; [reflexivity | ].
    rewrite Harg, Hstep. apply Hspin.
Qed.

(** The error of the value loops names the first token that is no number. *)
Lemma parseValues_error (tokens : list string) :
  forall (values : list float64) (e : string),
    parseValues F tokens values = Err e ->
    exists (before after : list string) (t parseError : string),
      tokens = (before ++ t :: after)%list /\
      Forall (fun t' => exists v, ParseFloat F t' = Ok v) before /\
      ParseFloat F t = Err parseError /\
      e = "invalid write value: " ++ t.
Proof.
  induction tokens as [ | t rest IH]; intros values e; cbn [parseValues].
  - discriminate.
  - destruct (ParseFloat F t) as [v | pe] eqn:Ht.
    + intros H. apply IH in H.
      destruct H as (before & after & t' & pe & -> & Hb & Ht' & ->).
      exists (t :: before), after, t', pe. repeat split; eauto.
    + intros H; inversion H.
      exists [], rest, t, pe. repeat split; auto.
Qed.

(** C3. Once the loop of the parser comes to the literal separator and
    every token after it is a number, parsing does not terminate: however
    many passes the loop is given, it has not returned. (Only a token
    after the separator that is no number ends it, with the error naming
    that token.) *)
Theorem separator_never_returns (args : list string) (i : nat) (c : Config)
    (values : list float64) :
  Reaches F args i c ->
  nth_error args i = Some "--" ->
  parseValues F (skipn (i + 1) args) [] = Ok values ->
  forall fuel : nat, parseArgs F fuel args = OutOfFuel.
Proof.
  intros Hreach Hsep Hvalues.
  apply (Reaches_spins args i c Hreach).
  intros fuel. eapply separator_spins; eauto.
Qed.

(** Away from the separator every pass moves the index on, so the loop
    returns within [length args + 1] tests of its condition. *)
Lemma parseArg_advances (args : list string) (i i' : nat) (arg : string)
    (c c' : Config) :
  nth_error args i = Some arg ->
  arg <> "--" ->
  parseArg F args i arg c = Next i' c' ->
  (i < i')%nat.
Proof.
  intros Hnth Hsep.
  assert (Hi : (i < length args)%nat)
    by (apply nth_error_Some; congruence).
  parse_cases; intros H; inversion H; subst; try lia.
  exfalso. apply Hsep. apply String.eqb_eq. assumption.
Qed.

Lemma parseLoop_returns (args : list string) :
  ~ In "--" args ->
  forall (fuel i : nat) (c : Config),
    (length args - i < fuel)%nat ->
    parseLoop F fuel args i c <> OutOfFuel.
Proof.
  intros Hsep.
  induction fuel as [ | fuel IH]; intros i c Hfuel; [lia | ].
  cbn [parseLoop].
  destruct (nth_error args i) as [arg | ] eqn:Hnth; [ | discriminate].
  assert (Harg : arg <> "--").
  { intros ->. apply Hsep. eapply nth_error_In; eauto. }
  assert (Hi : (i < length args)%nat)
    by (apply nth_error_Some; congruence).
  destruct (parseArg F args i arg c) as [i' c' | e | code] eqn:Hstep;
    try discriminate.
  apply IH.
  pose proof (parseArg_advances args i i' arg c c' Hnth Harg Hstep). lia.
Qed.

(** *** The target *)

Lemma bare_token_target (args : list string) (i : nat) (arg : string)
    (c : Config) :
  String.prefix "-" arg = false ->
  Host c = EmptyString -> Device c = EmptyString ->
  parseArg F args i arg c
  = if String.eqb (Mode c) "tcp"
    then Next (i + 1) (set_Host arg c)
    else Next (i + 1) (set_Device arg c).
Proof.
  intros Hbare Hhost Hdev.
  assert (Hopt : forall short long : string,
             String.prefix "-" short = true ->
             String.prefix "-" long = true ->
             isOpt arg short long = false).
  { intros short long Hs Hl. unfold isOpt.
    destruct (String.eqb_spec arg short) as [-> | _]; [congruence | ].
    destruct (String.eqb_spec arg long) as [-> | _]; [congruence | ].
    reflexivity. }
  unfold parseArg.
  rewrite !Hopt by reflexivity.
  destruct (String.eqb_spec arg "--") as [-> | _]; [discriminate | ].
  rewrite Hbare, Hhost, Hdev. reflexivity.
Qed.

(** C1. With [-m tls], [-m udp], [-m rtuovertcp] or [-m rtuoverudp]
    before the positional target, the parser accepts and binds the target
    to Device and leaves Host empty: the test is for the mode [tcp] alone.
    The transport selector then builds the endpoint of such a mode from
    the empty Host. *)
Theorem network_target_bound_to_Device (mode target : string) :
  In mode ["tls"; "udp"; "rtuovertcp"; "rtuoverudp"] ->
  String.prefix "-" target = false ->
  target <> EmptyString ->
  exists c : Config,
    parseArgs F 4 ["-m"; mode; target] = Returned (Ok c) /\
    Host c = EmptyString /\ Device c = target /\
    exists cc : ClientConfiguration,
      setupClient c = Ok cc /\ URL cc = mode ++ "://:502".
Proof.
  intros Hmode Hbare Hnonempty.
  assert (Hstep : parseArgs F 4 ["-m"; mode; target]
                  = Returned (finishArgs (set_Device target
                                (set_Mode mode defaultConfig)))).
  { unfold parseArgs. cbn [parseLoop nth_error].
    change (parseArg F ["-m"; mode; target] 0 "-m" defaultConfig)
      with (Next 2 (set_Mode mode (@defaultConfig float64))).
    cbn [parseLoop nth_error].
    rewrite bare_token_target by (auto; reflexivity).
    cbn [Mode set_Mode].
    replace (String.eqb mode "tcp") with false
      by (cbn in Hmode; decompose [or] Hmode; subst;
          (reflexivity || contradiction)).
    cbn [parseLoop nth_error Nat.add]. reflexivity. }
  rewrite Hstep.
  destruct target as [ | a target']; [contradiction | ].
  eexists; split; [reflexivity | ].
  cbn in Hmode; decompose [or] Hmode; subst; try contradiction;
    repeat split; eexists; split; reflexivity.
Qed.

End ParserProperties.
(** ** The wide-value codec *)

Lemma lor_low_bits (a lo : Z) :
  0 <= lo < 2 ^ 16 -> Z.lor (a * 2 ^ 16) lo = a * 2 ^ 16 + lo.
Proof.
  intros Hlo.
  assert (Hdisjoint : Z.land (a * 2 ^ 16) lo = 0).
  { apply Z.bits_inj'. intros n Hn.
    rewrite Z.land_spec, Z.bits_0.
    destruct (Z.lt_ge_cases n 16) as [Hlt | Hge].
    - rewrite Z.mul_pow2_bits_low by lia. reflexivity.
    - destruct (Z.eq_dec lo 0) as [-> | Hnz].
      + rewrite Z.bits_0. apply andb_false_r.
      + rewrite (Z.bits_above_log2 lo n); [apply andb_false_r | lia | ].
        apply Z.log2_lt_pow2; try lia.
        apply Z.lt_le_trans with (2 ^ 16); [lia | ].
        apply Z.pow_le_mono_r; lia. }
  rewrite <- Z.lxor_lor by exact Hdisjoint.
  symmetry. apply Z.add_nocarry_lxor. exact Hdisjoint.
Qed.

Lemma combineUint32_words (bigEndian : bool) (first second : Z) :
  0 <= first < 2 ^ 16 -> 0 <= second < 2 ^ 16 ->
  combineUint32 bigEndian first second
  = if bigEndian then first * 2 ^ 16 + second else second * 2 ^ 16 + first.
Proof.
  intros Hf Hs. unfold combineUint32, uint32.
  rewrite !Z.shiftl_mul_pow2 by lia.
  destruct bigEndian.
  - rewrite Z.mod_small by lia. apply lor_low_bits; lia.
  - rewrite Z.mod_small by lia. apply lor_low_bits; lia.
Qed.

Lemma registerWords_words (order : WordOrder) (high low : Z) :
  0 <= high < 2 ^ 16 -> 0 <= low < 2 ^ 16 ->
  registerWords order (high * 2 ^ 16 + low)
  = match order with
    | HIGH_WORD_FIRST => (high, low)
    | LOW_WORD_FIRST => (low, high)
    end.
Proof.
  intros Hh Hl. unfold registerWords.
  change 65535 with (Z.ones 16).
  rewrite !Z.land_ones, !Z.shiftr_div_pow2 by lia.
  assert (Hdiv : (high * 2 ^ 16 + low) / 2 ^ 16 = high).
  { rewrite Z.div_add_l by lia. rewrite Z.div_small by lia. lia. }
  assert (Hmod : (high * 2 ^ 16 + low) mod 2 ^ 16 = low).
  { rewrite Z.add_comm, Z.mod_add by lia. apply Z.mod_small; lia. }
  rewrite Hdiv, Hmod. destruct order; reflexivity.
Qed.

Lemma int32_shifted_word (w : Z) :
  0 <= w < 2 ^ 16 ->
  exists a : Z,
    int32 (Z.shiftl (int32 w) 16) = a * 2 ^ 16 /\
    (a * 2 ^ 16) mod 2 ^ 32 = w * 2 ^ 16.
Proof.
  intros Hw. unfold int32.
  replace ((w + 2 ^ 31) mod 2 ^ 32 - 2 ^ 31) with w
    by (rewrite Z.mod_small; lia).
  rewrite Z.shiftl_mul_pow2 by lia.
  destruct (Z.lt_ge_cases w (2 ^ 15)) as [Hlow | Hhigh].
  - exists w. rewrite !Z.mod_small by lia. lia.
  - exists (w - 2 ^ 16). split.
    + replace (w * 2 ^ 16 + 2 ^ 31)
        with (w * 2 ^ 16 - 2 ^ 31 + 1 * 2 ^ 32) by lia.
      rewrite Z.mod_add by lia. rewrite Z.mod_small by lia. lia.
    + replace ((w - 2 ^ 16) * 2 ^ 16) with (w * 2 ^ 16 + (-1) * 2 ^ 32) by lia.
      rewrite Z.mod_add by lia. apply Z.mod_small. lia.
Qed.

Lemma wideInt32_pattern (bigEndian : bool) (first second : Z) :
  0 <= first < 2 ^ 16 -> 0 <= second < 2 ^ 16 ->
  uint32 (wideInt32 bigEndian first second)
  = combineUint32 bigEndian first second.
Proof.
  intros Hf Hs. rewrite combineUint32_words by assumption.
  assert (Hsmall : forall w, 0 <= w < 2 ^ 16 -> int32 w = w).
  { intros w Hw. unfold int32. rewrite Z.mod_small; lia. }
  unfold wideInt32, uint32.
  destruct bigEndian.
  - destruct (int32_shifted_word first Hf) as (a & -> & Ha).
    rewrite (Hsmall second Hs), lor_low_bits by lia.
    rewrite Z.add_mod, Ha by lia.
    rewrite (Z.mod_small second) by lia. apply Z.mod_small; lia.
  - destruct (int32_shifted_word second Hs) as (a & -> & Ha).
    rewrite (Hsmall first Hf), lor_low_bits by lia.
    rewrite Z.add_mod, Ha by lia.
    rewrite (Z.mod_small first) by lia. apply Z.mod_small; lia.
Qed.

Lemma wideFloat32_pattern (bigEndian : bool) (first second : Z) :
  0 <= first < 2 ^ 16 -> 0 <= second < 2 ^ 16 ->
  wideFloat32 bigEndian first second
  = Float32frombits (combineUint32 bigEndian first second).
Proof.
  intros Hf Hs. unfold wideFloat32, combineUint32.
  assert (Hsmall : forall w, 0 <= w < 2 ^ 16 -> uint32 w = w).
  { intros w Hw. unfold uint32. rewrite Z.mod_small; lia. }
  rewrite (Hsmall first Hf), (Hsmall second Hs). reflexivity.
Qed.

Lemma connect_word_order {float64 session : Type}
    (transport : Transport session) (config : Config float64)
    (s s' : session) (log : list runEvent) :
  connect transport config s = (None, s', log) ->
  log = [ ROpen; RSetUnitId (uint8 (SlaveID config));
          RSetEncoding (if negb (BigEndian config) then LITTLE_ENDIAN
                        else BIG_ENDIAN) LOW_WORD_FIRST ].
Proof.
  unfold connect. destruct (Open transport s) as [[e | ] s1].
  - discriminate.
  - intros H; inversion H; reflexivity.
Qed.

(** C2. The round trip of a wide value through the registers fails under
    big-endian word order, the only one a command line selects. [connect]
    always sets the session to [LOW_WORD_FIRST]. For 16-bit words [first]
    and [second], the write path combines them with [first] as the high
    half; the library then puts the low half, [second], in the first
    register and [first] in the second; the read path takes the first
    register as the high half and shows [second * 2^16 + first], as an
    integer and as the bits of the float: the written value only when the
    two words are equal. Under [HIGH_WORD_FIRST] the registers would be
    [first], [second] and the value read the value written. *)
Theorem wide_round_trip_word_order (first second : Z) :
  0 <= first < 2 ^ 16 -> 0 <= second < 2 ^ 16 ->
  let written := combineUint32 true first second in
  let registers := registerWords LOW_WORD_FIRST written in
  (forall (float64 session : Type) (transport : Transport session)
          (config : Config float64) (s s' : session) (log : list runEvent),
     connect transport config s = (None, s', log) ->
     exists endian : Endianness,
       log = [ ROpen; RSetUnitId (uint8 (SlaveID config));
               RSetEncoding endian LOW_WORD_FIRST ]) /\
  written = first * 2 ^ 16 + second /\
  registers = (second, first) /\
  registerWords LOW_WORD_FIRST (Float32bits (Float32frombits written))
  = (second, first) /\
  uint32 (wideInt32 true (fst registers) (snd registers))
  = second * 2 ^ 16 + first /\
  wideFloat32 true (fst registers) (snd registers)
  = Float32frombits (second * 2 ^ 16 + first) /\
  (uint32 (wideInt32 true (fst registers) (snd registers)) = written
   <-> first = second) /\
  (wideFloat32 true (fst registers) (snd registers)
   = Float32frombits written <-> first = second) /\
  (let kept := registerWords HIGH_WORD_FIRST written in
   kept = (first, second) /\
   uint32 (wideInt32 true (fst kept) (snd kept)) = written /\
   wideFloat32 true (fst kept) (snd kept) = Float32frombits written).
Proof.
  intros Hf Hs written registers.
  assert (Hwritten : written = first * 2 ^ 16 + second)
    by (apply (combineUint32_words true); assumption).
  assert (Hregs : registers = (second, first)).
  { subst registers. rewrite Hwritten.
    apply (registerWords_words LOW_WORD_FIRST); assumption. }
  assert (Hread : combineUint32 true second first = second * 2 ^ 16 + first)
    by (apply (combineUint32_words true); assumption).
  split.
  { intros float64 session transport config s s' log Hc.
    eexists. apply (connect_word_order transport config s s' log Hc). }
  split; [exact Hwritten | ]. split; [exact Hregs | ].
  split; [exact Hregs | ].
  rewrite Hregs. cbn [fst snd].
  rewrite wideInt32_pattern, wideFloat32_pattern, Hread by assumption.
  split; [reflexivity | ]. split; [reflexivity | ].
  split; [rewrite Hwritten; lia | ].
  split.
  { rewrite Hwritten. split.
    - intros H. inversion H. lia.
    - intros ->. reflexivity. }
  assert (Hkept : registerWords HIGH_WORD_FIRST written = (first, second)).
  { rewrite Hwritten.
    apply (registerWords_words HIGH_WORD_FIRST); assumption. }
  cbv zeta. rewrite Hkept. cbn [fst snd].
  split; [reflexivity | ].
  rewrite wideInt32_pattern, wideFloat32_pattern by assumption.
  split; reflexivity.
Qed.

(** ** The dispatcher *)

Lemma requests_app (a b : list event) :
  requests (a ++ b) = (requests a ++ requests b)%list.
Proof.
  induction a as [ | [r | d | l] a IH]; cbn; rewrite ?IH; reflexivity.
Qed.

Lemma sleeps_app (a b : list event) :
  sleeps (a ++ b) = (sleeps a ++ sleeps b)%list.
Proof.
  induction a as [ | [r | d | l] a IH]; cbn; rewrite ?IH; reflexivity.
Qed.

Lemma requests_prints (lines : list line) : requests (map Print lines) = [].
Proof. induction lines; cbn; auto. Qed.

Lemma sleeps_prints (lines : list line) : sleeps (map Print lines) = [].
Proof. induction lines; cbn; auto. Qed.

Lemma OperationTrace_requests (write : bool) (addr : Z) (evs : list event) :
  OperationTrace write addr evs ->
  sleeps evs = [] /\
  (length (requests evs) <= 1)%nat /\
  Forall (fun r => requestAddr r = addr /\ isWrite r = write) (requests evs).
Proof.
  intros [ | req lines Hw Ha]; cbn.
  - repeat split; auto.
  - rewrite requests_prints, sleeps_prints. cbn. repeat split; auto.
Qed.

Lemma list_pair_ind {A : Type} (P : list A -> Prop) :
  P [] -> (forall a, P [a]) ->
  (forall a b l, P l -> P (a :: b :: l)) ->
  forall l, P l.
Proof.
  intros Hnil Hone Hstep.
  fix IH 1.
  intros [ | a [ | b l]]; [exact Hnil | apply Hone | apply Hstep, IH].
Qed.

Lemma nth_error_combine_seq {A : Type} (l : list A) :
  forall (a i : nat) (x : A),
    nth_error l i = Some x ->
    nth_error (combine (seq a (length l)) l) i = Some ((a + i)%nat, x).
Proof.
  induction l as [ | y l IH]; intros a [ | i] x; cbn; try discriminate.
  - intros H; inversion H. rewrite Nat.add_0_r. reflexivity.
  - intros H. rewrite (IH (S a) i x H). f_equal. f_equal. lia.
Qed.

Lemma nth_error_indexed {A : Type} (l : list A) (i : nat) (x : A) :
  nth_error l i = Some x -> nth_error (indexed l) i = Some (i, x).
Proof.
  intros H. unfold indexed. apply (nth_error_combine_seq l 0 i x H).
Qed.

Section DispatcherProperties.

Context {float64 : Type} (F : Float64Ops float64).
Context {session : Type} (client : ModbusClient session).

Local Abbreviation Config := (Config float64).

Lemma widePairs_length (config : Config) (values : list float64) :
  length (widePairs F config values) = (length values / 2)%nat.
Proof.
  rewrite <- Nat.div2_div.
  induction values as [ | a | a b l IH] using list_pair_ind; cbn; auto.
Qed.

Lemma performOperation_trace (config : Config) (startRef : Z) (s : session) :
  OperationTrace false (uint16 startRef)
    (eventsOf (performOperation client config startRef s)).
Proof.
  unfold performOperation, readCoils, readDiscreteInputs, readInputRegisters,
    readHoldingRegisters.
  operation_cases; cbn [eventsOf snd];
    first [ apply NoRequest
          | apply OneRequest; reflexivity
          | match goal with
            | |- OperationTrace _ _ [Call ?r] =>
                exact (OneRequest _ _ r [] eq_refl eq_refl)
            end ].
Qed.

Lemma performWriteOperation_trace (config : Config) (startRef : Z)
    (s : session) :
  OperationTrace true (uint16 startRef)
    (eventsOf (performWriteOperation F client config startRef s)).
Proof.
  unfold performWriteOperation, writeCoils, writeHoldingRegisters.
  operation_cases; cbn [eventsOf snd];
    first [ apply NoRequest
          | apply OneRequest; reflexivity
          | match goal with
            | |- OperationTrace _ _ [Call ?r] =>
                exact (OneRequest _ _ r [] eq_refl eq_refl)
            end ].
Qed.

Lemma performOperation_one_request (config : Config) (startRef : Z)
    (s : session) :
  dataTypeIn config ["0"; "1"; "3"; "3:hex"; "3:int"; "3:float";
                     "4"; "4:hex"; "4:int"; "4:float"] = true ->
  exists req : request,
    requests (eventsOf (performOperation client config startRef s)) = [req]
    /\ isWrite req = false /\ requestAddr req = uint16 startRef.
Proof.
  intros Htype.
  change (dataTypeIn config
            (["0"] ++ ["1"] ++ ["3"; "3:hex"; "3:int"; "3:float"]
             ++ ["4"; "4:hex"; "4:int"; "4:float"]) = true) in Htype.
  unfold dataTypeIn in Htype. rewrite !existsb_app in Htype.
  unfold performOperation, dataTypeIn.
  destruct (existsb _ ["0"]); [ | destruct (existsb _ ["1"]);
    [ | destruct (existsb _ ["3"; "3:hex"; "3:int"; "3:float"]);
      [ | destruct (existsb _ ["4"; "4:hex"; "4:int"; "4:float"]);
        [ | discriminate ] ] ] ];
    unfold readCoils, readDiscreteInputs, readInputRegisters,
      readHoldingRegisters;
    match goal with
    | |- context [match ?x with _ => _ end] => destruct x as [[? | ?] ?]
    end; cbn [eventsOf snd requests]; rewrite ?requests_prints;
    eexists; repeat split.
Qed.

(** *** Addresses *)

Lemma pollLoop_addresses (config : Config) (startRef : Z) (fuel : nat) :
  forall s : session,
    Forall (fun r => requestAddr r = uint16 startRef)
      (requests (eventsOf (pollLoop client config fuel startRef s))).
Proof.
  induction fuel as [ | fuel IH]; intros s; cbn [pollLoop].
  - constructor.
  - pose proof (performOperation_trace config startRef s) as Hop.
    apply OperationTrace_requests in Hop. destruct Hop as (_ & _ & Hop).
    destruct (performOperation client config startRef s) as [[[e | ] s'] evs];
      cbn [eventsOf snd] in *.
    + eapply Forall_impl; [ | exact Hop]. cbn; tauto.
    + destruct (PollOnce config).
      * eapply Forall_impl; [ | exact Hop]. cbn; tauto.
      * specialize (IH s').
        destruct (pollLoop client config fuel startRef s') as [[r s''] evs'].
        cbn [eventsOf snd] in *.
        rewrite requests_app. apply Forall_app. split.
        -- eapply Forall_impl; [ | exact Hop]. cbn; tauto.
        -- exact IH.
Qed.

Lemma execute_addresses (config : Config) (fuel : nat) (s : session) :
  Forall (fun r => requestAddr r = uint16 (executeStartRef config))
    (requests (eventsOf (execute F client config fuel s))).
Proof.
  unfold execute.
  destruct (0 <? length (WriteValues config))%nat.
  - pose proof (performWriteOperation_trace config (executeStartRef config) s)
      as Hop.
    apply OperationTrace_requests in Hop. destruct Hop as (_ & _ & Hop).
    destruct (performWriteOperation F client config (executeStartRef config) s)
      as [[e s'] evs].
    cbn [eventsOf snd] in *. rewrite requests_app, requests_prints.
    eapply Forall_impl; [ | exact Hop]. cbn; tauto.
  - pose proof (pollLoop_addresses config (executeStartRef config) fuel s)
      as Hloop.
    destruct (pollLoop client config fuel (executeStartRef config) s)
      as [[r s'] evs].
    cbn [eventsOf snd] in *. rewrite requests_app, requests_prints.
    exact Hloop.
Qed.

(** C6. With ZeroBased on, every request of a run goes to address 0,
    whatever StartRef is: [execute] replaces the start reference by 0. *)
Theorem zero_based_discards_StartRef (config : Config) (ref : Z)
    (fuel : nat) (s : session) :
  executeStartRef (set_ZeroBased true (set_StartRef ref config)) = 0 /\
  Forall (fun r => requestAddr r = 0)
    (requests
       (eventsOf
          (execute F client (set_ZeroBased true (set_StartRef ref config))
             fuel s))).
Proof.
  split; [reflexivity | ].
  exact (execute_addresses (set_ZeroBased true (set_StartRef ref config))
           fuel s).
Qed.

(** C10. StartRef is never range-checked and every operation narrows
    its start reference to 16 bits: the outcome of validation is the same
    for every integer StartRef; every read and write operation hands the
    client its start reference reduced modulo 2^16; with ZeroBased off
    that is StartRef, so every request of a run goes to StartRef mod 2^16.
    With ZeroBased on, [execute] hands the operations 0 in its place, and
    every request goes to address 0. *)
Theorem StartRef_narrowed (config : Config) (fuel : nat) (s : session) :
  (forall ref : Z,
     validateConfig (set_StartRef ref config) = validateConfig config) /\
  (forall startRef : Z,
     OperationTrace false (startRef mod 2 ^ 16)
       (eventsOf (performOperation client config startRef s)) /\
     OperationTrace true (startRef mod 2 ^ 16)
       (eventsOf (performWriteOperation F client config startRef s))) /\
  (ZeroBased config = false ->
   executeStartRef config = StartRef config /\
   Forall (fun r => requestAddr r = StartRef config mod 2 ^ 16)
     (requests (eventsOf (execute F client config fuel s)))) /\
  (ZeroBased config = true ->
   executeStartRef config = 0 /\
   Forall (fun r => requestAddr r = 0)
     (requests (eventsOf (execute F client config fuel s)))).
Proof.
  split; [reflexivity | ].
  split.
  { intros startRef. split.
    - apply performOperation_trace.
    - apply performWriteOperation_trace. }
  split; intros Hzero.
  - assert (Hstart : executeStartRef config = StartRef config)
      by (unfold executeStartRef; rewrite Hzero; reflexivity).
    split; [exact Hstart | ].
    rewrite <- Hstart. apply execute_addresses.
  - assert (Hstart : executeStartRef config = 0)
      by (unfold executeStartRef; rewrite Hzero; reflexivity).
    split; [exact Hstart | ].
    pose proof (execute_addresses config fuel s) as H.
    rewrite Hstart in H. exact H.
Qed.

(** *** Writes *)

Lemma execute_write (config : Config) (fuel : nat) (s : session) :
  WriteValues config <> [] ->
  let op := performWriteOperation F client config (executeStartRef config) s in
  execute F client config fuel s
  = (Returned (resultOf op), sessionOf op,
     (map Print (if Verbose config then printConfig config else [])
        ++ eventsOf op)%list).
Proof.
  intros Hvalues op. unfold execute.
  destruct (WriteValues config) as [ | v vs] eqn:Hv; [contradiction | ].
  cbn [length Nat.ltb Nat.leb]. fold op.
  destruct op as [[e s'] evs]. reflexivity.
Qed.

Lemma unwritable_type (config : Config) (startRef : Z) (s : session) :
  WriteValues config <> [] ->
  dataTypeIn config ["0"; "4"; "4:hex"; "4:int"; "4:float"] = false ->
  performWriteOperation F client config startRef s
  = (Some ("write operations not supported for data type: "
           ++ DataType config), s, []).
Proof.
  intros Hvalues Htype. unfold performWriteOperation.
  destruct (WriteValues config) as [ | v vs]; [contradiction | ].
  cbn [length Nat.eqb].
  unfold dataTypeIn in *. cbn [existsb] in *.
  repeat match type of Htype with
    | (?a || _) = false =>
        apply orb_false_iff in Htype; destruct Htype as [? Htype]
    end.
  repeat match goal with H : String.eqb _ _ = false |- _ => rewrite H; clear H end.
  reflexivity.
Qed.

(** For the other writable types a success has sent the one request
    that carries every value. *)
Lemma write_success_sends (config : Config) (startRef : Z) (s s' : session)
    (evs : list event) :
  performWriteOperation F client config startRef s = (None, s', evs) ->
  DataType config <> "4:hex" ->
  exists req : request,
    requests evs = [req] /\
    (req = ReqWriteCoils (uint16 startRef)
             (map (nonZero F) (WriteValues config)) \/
     req = ReqWriteRegisters (uint16 startRef)
             (map (toUint16 F) (WriteValues config)) \/
     req = ReqWriteUint32s (uint16 startRef)
             (widePairs F config (WriteValues config)) \/
     req = ReqWriteFloat32s (uint16 startRef)
             (map Float32frombits (widePairs F config (WriteValues config)))).
Proof.
  intros Hop Hhex.
  unfold performWriteOperation, writeCoils, writeHoldingRegisters, dataTypeIn
    in Hop.
  cbn [existsb] in Hop.
  destruct (length (WriteValues config) =? 0)%nat; [discriminate | ].
  destruct (String.eqb_spec (DataType config) "0") as [H0 | H0];
    cbn [orb] in Hop.
  - destruct (WriteCoils client s _ _) as [[e | ] s1]; [discriminate | ].
    inversion Hop; subst. cbn [requests]. rewrite requests_prints. eauto.
  - destruct (String.eqb_spec (DataType config) "4") as [H4 | H4];
      cbn [orb] in Hop.
    + destruct (WriteRegisters client s _ _) as [[e | ] s1]; [discriminate | ].
      inversion Hop; subst. cbn [requests]. rewrite requests_prints. eauto.
    + destruct (String.eqb_spec (DataType config) "4:hex") as [Hx | Hx];
        [contradiction | ]; cbn [orb] in Hop.
      destruct (String.eqb_spec (DataType config) "4:int") as [Hi | Hi];
        cbn [orb] in Hop.
      * destruct (negb _); [discriminate | ].
        destruct (WriteUint32s client s _ _) as [[e | ] s1]; [discriminate | ].
        inversion Hop; subst. cbn [requests]. rewrite requests_prints.
        eexists; split; [reflexivity | ]. right; right; left; reflexivity.
      * destruct (String.eqb_spec (DataType config) "4:float") as [Hf | Hf];
          cbn [orb] in Hop; [ | discriminate].
        destruct (negb _); [discriminate | ].
        destruct (WriteFloat32s client s _ _) as [[e | ] s1]; [discriminate | ].
        inversion Hop; subst. cbn [requests]. rewrite requests_prints.
        eexists; split; [reflexivity | ]. right; right; right; reflexivity.
Qed.

(** C5. A write run with the data type [4:hex] and any write values
    reports success and has done nothing: the dispatcher takes the type as
    writable, no case of the handler's switch matches it, and no request
    reaches the client. *)
Theorem hex_write_no_op (config : Config) (v : float64)
    (vs : list float64) (startRef : Z) (fuel : nat) (s : session) :
  let c := set_DataType "4:hex" (set_WriteValues (v :: vs) config) in
  performWriteOperation F client c startRef s = (None, s, []) /\
  resultOf (execute F client c fuel s) = Returned None /\
  sessionOf (execute F client c fuel s) = s /\
  requests (eventsOf (execute F client c fuel s)) = [].
Proof.
  intros c.
  assert (Hop : forall ref, performWriteOperation F client c ref s = (None, s, []))
    by reflexivity.
  split; [apply Hop | ].
  rewrite execute_write by discriminate.
  rewrite Hop. cbn [resultOf sessionOf eventsOf fst snd].
  rewrite app_nil_r, requests_prints. repeat split.
Qed.

Lemma widePairs_nth (config : Config) (values : list float64) :
  forall (i : nat) (h l : float64),
    nth_error values (2 * i) = Some h ->
    nth_error values (2 * i + 1) = Some l ->
    nth_error (widePairs F config values) i
    = Some (combineUint32 (BigEndian config) (toUint32 F h) (toUint32 F l)).
Proof.
  induction values as [ | a | a b rest IH] using list_pair_ind;
    intros i h l Hh Hl.
  - destruct i; discriminate.
  - destruct i as [ | i]; [discriminate | ].
    replace (2 * S i)%nat with (S (S (2 * i))) in Hh by lia.
    cbn in Hh. destruct (2 * i)%nat; discriminate.
  - destruct i as [ | i].
    + cbn in Hh, Hl. inversion Hh; inversion Hl; subst. reflexivity.
    + replace (2 * S i)%nat with (S (S (2 * i))) in Hh by lia.
      replace (2 * S i + 1)%nat with (S (S (2 * i + 1))) in Hl by lia.
      cbn [nth_error] in Hh, Hl. cbn [widePairs nth_error].
      apply IH; assumption.
Qed.

Lemma indexed_lines {A : Type} (f : nat * A -> line) (l : list A) :
  length (map f (indexed l)) = length l /\
  forall (i : nat) (x : A),
    nth_error l i = Some x -> nth_error (map f (indexed l)) i = Some (f (i, x)).
Proof.
  split.
  - unfold indexed. rewrite length_map, length_combine, length_seq.
    apply Nat.min_id.
  - intros i x Hx. rewrite nth_error_map, (nth_error_indexed l i x Hx).
    reflexivity.
Qed.

(** C4, amended. With write values present and the data type [4:int] or
    [4:float]: an odd number of values fails with the even-count error of
    the type and sends nothing; an even number n is combined pair by pair
    into n/2 values, the i-th from the values 2i and 2i+1 in the word
    order of the configuration, and when the client accepts the write the
    run succeeds with the one request that carries them, the summary line
    and n/2 echo lines, the i-th showing the i-th combined value at
    address startRef+2i. Validation never looks at the data type: what it
    says of a configuration is the same for every type, and a valid
    configuration stays valid with any type and any Count in [1,125], an
    odd one with a wide type included. *)
Theorem wide_write_counts (config : Config) (startRef : Z) (s : session) :
  (WriteValues config <> [] ->
   (length (WriteValues config) mod 2 = 1)%nat ->
   (DataType config = "4:int" ->
    performWriteOperation F client config startRef s
    = (Some "32-bit integers require even number of values", s, [])) /\
   (DataType config = "4:float" ->
    performWriteOperation F client config startRef s
    = (Some "32-bit floats require even number of values", s, []))) /\
  (WriteValues config <> [] ->
   (length (WriteValues config) mod 2 = 0)%nat ->
   exists values : list Z,
     length values = (length (WriteValues config) / 2)%nat /\
     (forall (i : nat) (h l : float64),
        nth_error (WriteValues config) (2 * i) = Some h ->
        nth_error (WriteValues config) (2 * i + 1) = Some l ->
        nth_error values i
        = Some (if BigEndian config
                then Z.lor (uint32 (Z.shiftl (toUint32 F h) 16)) (toUint32 F l)
                else Z.lor (uint32 (Z.shiftl (toUint32 F l) 16)) (toUint32 F h)))
     /\
     (DataType config = "4:int" ->
      forall s' : session,
        WriteUint32s client s (uint16 startRef) values = (None, s') ->
        exists echo : list line,
          performWriteOperation F client config startRef s
          = (None, s',
             Call (ReqWriteUint32s (uint16 startRef) values)
               :: map Print
                    (LWrote (length (WriteValues config) / 2)
                            "32-bit integer(s)" startRef
                       :: echo)) /\
          length echo = (length (WriteValues config) / 2)%nat /\
          forall (i : nat) (val : Z),
            nth_error values i = Some val ->
            nth_error echo i
            = Some (LValue (Go.add startRef (Go.mul (Z.of_nat i) 2)) val)) /\
     (DataType config = "4:float" ->
      forall s' : session,
        WriteFloat32s client s (uint16 startRef)
          (map Float32frombits values) = (None, s') ->
        exists echo : list line,
          performWriteOperation F client config startRef s
          = (None, s',
             Call (ReqWriteFloat32s (uint16 startRef)
                     (map Float32frombits values))
               :: map Print
                    (LWrote (length (WriteValues config) / 2)
                            "32-bit float(s)" startRef
                       :: echo)) /\
          length echo = (length (WriteValues config) / 2)%nat /\
          forall (i : nat) (val : Z),
            nth_error values i = Some val ->
            nth_error echo i
            = Some (LFloat (Go.add startRef (Go.mul (Z.of_nat i) 2))
                           (Float32frombits val)))) /\
  (forall (t : string) (count : Z),
     validateConfig (set_DataType t (set_Count count config))
     = validateConfig (set_Count count config)) /\
  (forall (t : string) (count : Z),
     1 <= count <= 125 ->
     validateConfig config = None ->
     validateConfig (set_DataType t (set_Count count config)) = None).
Proof.
  assert (Hlen : WriteValues config <> [] ->
                 (length (WriteValues config) =? 0)%nat = false).
  { destruct (WriteValues config); [contradiction | reflexivity]. }
  split; [ | split; [ | split; [reflexivity | ]]].
  - intros Hvalues Hodd. specialize (Hlen Hvalues).
    split; intros Ht;
      unfold performWriteOperation, writeHoldingRegisters, dataTypeIn;
      rewrite Hlen, Hodd, Ht; reflexivity.
  - intros Hvalues Heven. specialize (Hlen Hvalues).
    exists (widePairs F config (WriteValues config)).
    split; [apply widePairs_length | ].
    split.
    { intros i h l Hh Hl.
      rewrite (widePairs_nth config (WriteValues config) i h l Hh Hl).
      reflexivity. }
    split; intros Ht s' Hwrite.
    + eexists.
      unfold performWriteOperation, writeHoldingRegisters, dataTypeIn.
      rewrite Hlen, Heven, Ht.
      cbn [existsb String.eqb Ascii.eqb Bool.eqb orb negb Nat.eqb].
      rewrite Hwrite, widePairs_length.
      split; [reflexivity | ].
      rewrite <- (widePairs_length config).
      apply (indexed_lines
               (fun '(i, val) =>
                  LValue (Go.add startRef (Go.mul (Z.of_nat i) 2)) val)).
    + eexists.
      unfold performWriteOperation, writeHoldingRegisters, dataTypeIn.
      rewrite Hlen, Heven, Ht.
      cbn [existsb String.eqb Ascii.eqb Bool.eqb orb negb Nat.eqb].
      rewrite Hwrite, length_map, widePairs_length.
      split; [reflexivity | ].
      destruct (indexed_lines
                  (fun '(i, val) =>
                     LFloat (Go.add startRef (Go.mul (Z.of_nat i) 2)) val)
                  (map Float32frombits
                     (widePairs F config (WriteValues config))))
        as [Hl Hn].
      split.
      * rewrite Hl, length_map. apply widePairs_length.
      * intros i val Hval. apply Hn.
        rewrite nth_error_map, Hval. reflexivity.
  - intros t count Hcount Hvalid.
    apply validateConfig_accepts. apply validateConfig_accepts in Hvalid.
    unfold CountOk, SlaveOk, BaudOk, DatabitsOk, StopbitsOk, ParityOk,
      PollRateOk, TimeoutOk in *.
    cbn. exact (conj Hcount (proj2 Hvalid)).
Qed.

(** The request of a write run is sent whatever the client answers. *)
Lemma write_request_sent (config : Config) (startRef : Z) (s : session) :
  WriteValues config <> [] ->
  let sent :=
    requests (eventsOf (performWriteOperation F client config startRef s)) in
  (DataType config = "0" ->
   sent = [ReqWriteCoils (uint16 startRef)
             (map (nonZero F) (WriteValues config))]) /\
  (DataType config = "4" ->
   sent = [ReqWriteRegisters (uint16 startRef)
             (map (toUint16 F) (WriteValues config))]) /\
  ((length (WriteValues config) mod 2 = 0)%nat ->
   (DataType config = "4:int" ->
    sent = [ReqWriteUint32s (uint16 startRef)
              (widePairs F config (WriteValues config))]) /\
   (DataType config = "4:float" ->
    sent = [ReqWriteFloat32s (uint16 startRef)
              (map Float32frombits
                 (widePairs F config (WriteValues config)))])).
Proof.
  intros Hvalues sent. subst sent.
  assert (Hlen : (length (WriteValues config) =? 0)%nat = false).
  { destruct (WriteValues config); [contradiction | reflexivity]. }
  unfold performWriteOperation, writeCoils, writeHoldingRegisters, dataTypeIn.
  rewrite Hlen.
  split; [ | split; [ | intros Heven; rewrite Heven; split]];
    intros Ht; rewrite Ht;
    cbn [existsb String.eqb Ascii.eqb Bool.eqb orb negb Nat.eqb];
    match goal with
    | |- context [match ?x with _ => _ end] => destruct x as [[e | ] s1]
    end;
    cbn [eventsOf snd requests]; rewrite ?requests_prints; reflexivity.
Qed.

End DispatcherProperties.

(** ** The poll loop *)

Section PollProperties.

Context {float64 : Type} (F : Float64Ops float64).
Context {session : Type} (client : ModbusClient session).

Variable config : Config float64.

Local Abbreviation startRef := (executeStartRef config).
Local Abbreviation verbose :=
  (map Print (if Verbose config then printConfig config else [])).

Lemma execute_read (fuel : nat) (s : session) :
  WriteValues config = [] ->
  let loop := pollLoop client config fuel startRef s in
  execute F client config fuel s
  = (resultOf loop, sessionOf loop, (verbose ++ eventsOf loop)%list).
Proof.
  intros Hvalues loop. unfold execute. rewrite Hvalues.
  cbn [length Nat.ltb Nat.leb]. fold loop.
  destruct loop as [[r s'] evs]. reflexivity.
Qed.

Lemma pollLoop_once (fuel : nat) (s : session) :
  PollOnce config = true ->
  let op := performOperation client config startRef s in
  pollLoop client config (S fuel) startRef s
  = (Returned (resultOf op), sessionOf op, eventsOf op).
Proof.
  intros Honce op. cbn [pollLoop]. fold op. rewrite Honce.
  destruct op as [[[e | ] s'] evs]; reflexivity.
Qed.

Lemma pollLoop_fails_after (n : nat) (s s1 s2 : session)
    (evs evs2 : list event) (e : string) :
  PollOnce config = false ->
  Rounds client config startRef n s evs s1 ->
  performOperation client config startRef s1 = (Some e, s2, evs2) ->
  forall fuel : nat,
    (n < fuel)%nat ->
    pollLoop client config fuel startRef s
    = (Returned (Some e), s2, (evs ++ evs2)%list).
Proof.
  intros Hpoll Hrounds Hfail.
  induction Hrounds as [s | n s s1 s3 evs evs' Hop Hrounds IH];
    intros [ | fuel] Hfuel; try lia; cbn [pollLoop].
  - rewrite Hfail. reflexivity.
  - rewrite Hop, Hpoll, (IH Hfail fuel) by lia.
    rewrite <- app_assoc. reflexivity.
Qed.

Lemma pollLoop_returns_on_failure (fuel : nat) :
  PollOnce config = false ->
  forall (s s' : session) (r : option string) (evs : list event),
    pollLoop client config fuel startRef s = (Returned r, s', evs) ->
    exists (n : nat) (s1 : session) (e : string) (evsA evsB : list event),
      Rounds client config startRef n s evsA s1 /\
      performOperation client config startRef s1 = (Some e, s', evsB) /\
      r = Some e /\ evs = (evsA ++ evsB)%list.
Proof.
  intros Hpoll.
  induction fuel as [ | fuel IH]; intros s s' r evs; cbn [pollLoop].
  - discriminate.
  - destruct (performOperation client config startRef s)
      as [[[e | ] s1] evs1] eqn:Hop.
    + intros H; inversion H; subst.
      exists O, s, e, [], evs. repeat split; auto. constructor.
    + rewrite Hpoll.
      destruct (pollLoop client config fuel startRef s1)
        as [[r' s''] evs'] eqn:Hloop.
      intros H; inversion H; subst.
      destruct (IH _ _ _ _ Hloop) as (n & s2 & e & evsA & evsB & Hr & Hf & -> & ->).
      exists (S n), s2, e, (evs1 ++ Sleep (PollRate config) :: evsA)%list, evsB.
      repeat split; auto.
      * econstructor; eauto.
      * rewrite <- app_assoc. reflexivity.
Qed.

Lemma pollLoop_forever (s : session) :
  PollOnce config = false ->
  (forall n s1 evs,
     Rounds client config startRef n s evs s1 ->
     resultOf (performOperation client config startRef s1) = None) ->
  forall fuel : nat,
    resultOf (pollLoop client config fuel startRef s) = OutOfFuel.
Proof.
  intros Hpoll Hok fuel. revert s Hok.
  induction fuel as [ | fuel IH]; intros s Hok; cbn [pollLoop].
  - reflexivity.
  - pose proof (Hok O s [] (RoundsO _ _ _ s)) as Hfirst.
    destruct (performOperation client config startRef s)
      as [[[e | ] s1] evs1] eqn:Hop; [discriminate | ].
    rewrite Hpoll.
    assert (Hnext : forall n s2 evs,
               Rounds client config startRef n s1 evs s2 ->
               resultOf (performOperation client config startRef s2) = None).
    { intros n s2 evs Hr. eapply (Hok (S n)). econstructor; eauto. }
    specialize (IH s1 Hnext).
    destruct (pollLoop client config fuel startRef s1) as [[r s''] evs'].
    exact IH.
Qed.

(** C7. A run with write values performs the write operation once,
    without sleeping, whatever PollOnce and PollRate are: for coils, for
    plain registers and for an even number of wide values it sends the
    one write request that carries every value, whatever the client
    answers; it never sends a read or a second request, and a success on
    a type other than [4:hex] has sent exactly one write request. A read
    run with PollOnce on performs the read operation once, without sleeping, and
    returns what it returned: success when it succeeded. A read run with
    PollOnce off repeats the read operation with a sleep of PollRate after
    each success; it returns only when a read fails, then with that
    failure; while reads succeed it does not return. *)
Theorem execute_once_or_poll (s : session) :
  (WriteValues config <> [] ->
   forall fuel : nat,
     let op := performWriteOperation F client config startRef s in
     execute F client config fuel s
     = (Returned (resultOf op), sessionOf op, (verbose ++ eventsOf op)%list) /\
     sleeps (eventsOf (execute F client config fuel s)) = [] /\
     (length (requests (eventsOf (execute F client config fuel s))) <= 1)%nat /\
     Forall (fun r => isWrite r = true)
       (requests (eventsOf (execute F client config fuel s))) /\
     (DataType config = "0" ->
      requests (eventsOf (execute F client config fuel s))
      = [ReqWriteCoils (uint16 startRef)
           (map (nonZero F) (WriteValues config))]) /\
     (DataType config = "4" ->
      requests (eventsOf (execute F client config fuel s))
      = [ReqWriteRegisters (uint16 startRef)
           (map (toUint16 F) (WriteValues config))]) /\
     ((length (WriteValues config) mod 2 = 0)%nat ->
      (DataType config = "4:int" ->
       requests (eventsOf (execute F client config fuel s))
       = [ReqWriteUint32s (uint16 startRef)
            (widePairs F config (WriteValues config))]) /\
      (DataType config = "4:float" ->
       requests (eventsOf (execute F client config fuel s))
       = [ReqWriteFloat32s (uint16 startRef)
            (map Float32frombits
               (widePairs F config (WriteValues config)))])) /\
     (resultOf op = None -> DataType config <> "4:hex" ->
      exists req : request,
        requests (eventsOf (execute F client config fuel s)) = [req] /\
        isWrite req = true) /\
     forall (once : bool) (rate : Z) (fuel' : nat),
       let run' :=
         execute F client (set_PollOnce once (set_PollRate rate config))
           fuel' s in
       resultOf run' = Returned (resultOf op) /\
       sessionOf run' = sessionOf op /\
       requests (eventsOf run') = requests (eventsOf op)) /\
  (WriteValues config = [] -> PollOnce config = true ->
   forall fuel : nat,
     let op := performOperation client config startRef s in
     execute F client config (S fuel) s
     = (Returned (resultOf op), sessionOf op, (verbose ++ eventsOf op)%list) /\
     sleeps (eventsOf (execute F client config (S fuel) s)) = [] /\
     (length (requests (eventsOf (execute F client config (S fuel) s))) <= 1)%nat /\
     (dataTypeIn config ["0"; "1"; "3"; "3:hex"; "3:int"; "3:float";
                         "4"; "4:hex"; "4:int"; "4:float"] = true ->
      exists req : request,
        requests (eventsOf (execute F client config (S fuel) s)) = [req] /\
        isWrite req = false)) /\
  (WriteValues config = [] -> PollOnce config = false ->
   (forall (n : nat) (s1 s2 : session) (evs evs2 : list event) (e : string),
      Rounds client config startRef n s evs s1 ->
      performOperation client config startRef s1 = (Some e, s2, evs2) ->
      forall fuel : nat,
        (n < fuel)%nat ->
        execute F client config fuel s
        = (Returned (Some e), s2, (verbose ++ evs ++ evs2)%list)) /\
   (forall (fuel : nat) (r : option string) (s' : session)
           (evs : list event),
      execute F client config fuel s = (Returned r, s', evs) ->
      exists (n : nat) (s1 : session) (e : string)
             (evsA evsB : list event),
        Rounds client config startRef n s evsA s1 /\
        performOperation client config startRef s1 = (Some e, s', evsB) /\
        r = Some e /\ evs = (verbose ++ evsA ++ evsB)%list) /\
   ((forall n s1 evs,
       Rounds client config startRef n s evs s1 ->
       resultOf (performOperation client config startRef s1) = None) ->
    forall fuel : nat,
      resultOf (execute F client config fuel s) = OutOfFuel)).
Proof.
  split; [ | split].
  - intros Hvalues fuel op.
    pose proof (performWriteOperation_trace F client config startRef s) as Htr.
    apply OperationTrace_requests in Htr. fold op in Htr.
    destruct Htr as (Hsleep & Hone & Hall).
    pose proof (write_request_sent F client config startRef s Hvalues)
      as Hsent.
    cbv zeta in Hsent. fold op in Hsent.
    destruct Hsent as (Hcoils & Hplain & Hwide).
    rewrite (execute_write F client config fuel s Hvalues). fold op.
    cbn [eventsOf snd].
    rewrite sleeps_app, sleeps_prints, requests_app, requests_prints.
    cbn [app].
    split; [reflexivity | ]. split; [exact Hsleep | ].
    split; [exact Hone | ].
    split; [eapply Forall_impl; [ | exact Hall]; cbn; tauto | ].
    split; [exact Hcoils | ]. split; [exact Hplain | ].
    split; [exact Hwide | ].
    split.
    { intros Hok Hhex.
      destruct op as [[res s'] evs] eqn:Hop. cbn [resultOf fst] in Hok.
      subst res. cbn [eventsOf snd].
      destruct (write_success_sends F client config startRef s s' evs
                  Hop Hhex) as (req & Hreq & Hkind).
      exists req. split; [exact Hreq | ].
      decompose [or] Hkind; subst; reflexivity. }
    intros once rate fuel'. cbv zeta.
    rewrite (execute_write F client) by exact Hvalues.
    cbn [resultOf sessionOf eventsOf fst snd].
    rewrite ?requests_app, ?requests_prints. repeat split.
  - intros Hvalues Honce fuel op.
    pose proof (performOperation_trace client config startRef s) as Htr.
    apply OperationTrace_requests in Htr. fold op in Htr.
    destruct Htr as (Hsleep & Hone & _).
    rewrite (execute_read (S fuel) s Hvalues).
    rewrite (pollLoop_once fuel s Honce). fold op.
    cbn [resultOf sessionOf eventsOf fst snd].
    rewrite sleeps_app, sleeps_prints, requests_app, requests_prints.
    cbn [app]. repeat split; auto.
    intros Htype.
    destruct (performOperation_one_request client config startRef s Htype)
      as (req & Hreq & Hread & _).
    exists req. split; assumption.
  - intros Hvalues Hpoll. split; [ | split].
    + intros n s1 s2 evs evs2 e Hrounds Hfail fuel Hfuel.
      rewrite (execute_read fuel s Hvalues).
      rewrite (pollLoop_fails_after n s s1 s2 evs evs2 e Hpoll Hrounds Hfail fuel Hfuel).
      reflexivity.
    + intros fuel r s' evs. rewrite (execute_read fuel s Hvalues).
      destruct (pollLoop client config fuel startRef s)
        as [[r0 s0] evs0] eqn:Hloop.
      cbn [resultOf sessionOf eventsOf fst snd].
      intros H; inversion H; subst.
      destruct (pollLoop_returns_on_failure fuel Hpoll _ _ _ _ Hloop)
        as (n & s1 & e & evsA & evsB & Hr & Hf & -> & ->).
      exists n, s1, e, evsA, evsB. repeat split; auto.
    + intros Hok fuel. rewrite (execute_read fuel s Hvalues).
      cbn [resultOf fst]. apply pollLoop_forever; assumption.
Qed.

End PollProperties.

(** ** The properties at work *)

(** [-t 4:int host 1 2] writes 65538; the registers are then 2 and 1,
    and [-t 4:int -c 2 host] shows 131073. *)
Lemma wide_round_trip_word_order_example :
  0 <= 1 < 2 ^ 16 /\ 0 <= 2 < 2 ^ 16 /\
  combineUint32 true 1 2 = 65538 /\
  registerWords LOW_WORD_FIRST (combineUint32 true 1 2) = (2, 1) /\
  uint32 (wideInt32 true 2 1) = 131073.
Proof.
  split; [lia | ]. split; [lia | ].
  pose proof (wide_round_trip_word_order 1 2 ltac:(lia) ltac:(lia)) as H.
  cbv zeta in H.
  destruct H as (_ & Hw & Hr & _ & Hi & _).
  split; [exact Hw | ]. split; [exact Hr | ].
  rewrite Hr in Hi. exact Hi.
Defined.

(** [-B -m rtu /dev/ttyUSB0] is accepted, with big-endian word order. *)
Lemma parseArgs_BigEndian_example :
  exists c : Config Z,
    parseArgs integerFloat 5 ["-B"; "-m"; "rtu"; "/dev/ttyUSB0"]
    = Returned (Ok c) /\
    Device c = "/dev/ttyUSB0" /\ BigEndian c = true.
Proof.
  eexists. split; [reflexivity | ]. split; [reflexivity | ].
  apply (parseArgs_BigEndian integerFloat 5
           ["-B"; "-m"; "rtu"; "/dev/ttyUSB0"]).
  reflexivity.
Defined.

(** [host -- 5]: the loop comes to the separator with the target set, the
    token after it is a number, and the parser does not return. *)
Lemma separator_never_returns_example :
  Reaches integerFloat ["host"; "--"; "5"] 1 (set_Host "host" defaultConfig) /\
  nth_error ["host"; "--"; "5"] 1 = Some "--" /\
  parseValues integerFloat (skipn 2 ["host"; "--"; "5"]) [] = Ok [5] /\
  forall fuel : nat,
    parseArgs integerFloat fuel ["host"; "--"; "5"] = OutOfFuel.
Proof.
  assert (Hreach : Reaches integerFloat ["host"; "--"; "5"] 1
                     (set_Host "host" defaultConfig)).
  { apply (ReachesNext integerFloat _ 0 1 defaultConfig _ "host");
      [apply ReachesStart | reflexivity | reflexivity]. }
  split; [exact Hreach | ]. split; [reflexivity | ]. split; [reflexivity | ].
  apply (separator_never_returns integerFloat ["host"; "--"; "5"] 1
           (set_Host "host" defaultConfig) [5] Hreach);
    reflexivity.
Defined.

(** [-m tls 192.168.1.100]: the address lands in Device, and the endpoint
    of the session has no host. *)
Lemma network_target_bound_to_Device_example :
  exists c : Config Z,
    parseArgs integerFloat 4 ["-m"; "tls"; "192.168.1.100"]
    = Returned (Ok c) /\
    Host c = EmptyString /\ Device c = "192.168.1.100" /\
    exists cc : ClientConfiguration,
      setupClient c = Ok cc /\ URL cc = "tls://:502".
Proof.
  apply (network_target_bound_to_Device integerFloat "tls" "192.168.1.100").
  - cbn. auto.
  - reflexivity.
  - discriminate.
Defined.

(** [-m udp HOST] likewise. *)
Lemma udp_target_bound_to_Device :
  parseArgs integerFloat 4 ["-m"; "udp"; "192.168.1.100"]
  = Returned (Ok (set_Device "192.168.1.100" (set_Mode "udp" defaultConfig))).
Proof. reflexivity. Qed.

(** [-t 3:int -c 3 host]: a wide read type with an odd count is accepted
    by the parser, validation included. *)
Lemma wide_read_odd_count_accepted :
  exists c : Config Z,
    parseArgs integerFloat 6 ["-t"; "3:int"; "-c"; "3"; "host"]
    = Returned (Ok c) /\
    DataType c = "3:int" /\ Count c = 3 /\ validateConfig c = None.
Proof.
  eexists. split; [reflexivity | ]. repeat split.
Defined.

(** [-t 4:int host 1 2 3 4] against a client that accepts the write:
    the values 65538 and 196612 are sent and echoed at addresses 1 and 3. *)
Lemma wide_write_counts_example :
  exists (c : Config Z) (values : list Z) (echo : list line),
    parseArgs integerFloat 8 ["-t"; "4:int"; "host"; "1"; "2"; "3"; "4"]
    = Returned (Ok c) /\
    length values = 2%nat /\
    nth_error values 0 = Some 65538 /\
    nth_error values 1 = Some 196612 /\
    performWriteOperation integerFloat (stubClient None) c 1 0%nat
    = (None, 1%nat,
       Call (ReqWriteUint32s 1 values)
         :: map Print (LWrote 2 "32-bit integer(s)" 1 :: echo)) /\
    length echo = 2%nat /\
    nth_error echo 0 = Some (LValue 1 65538) /\
    nth_error echo 1 = Some (LValue 3 196612).
Proof.
  eexists.
  destruct (proj1 (proj2
              (wide_write_counts integerFloat (stubClient None)
                 (set_WriteValues [1; 2; 3; 4]
                    (set_Host "host" (set_DataType "4:int" defaultConfig)))
                 1 0%nat))
              ltac:(discriminate) eq_refl)
    as (values & Hlen & Hnth & Hint & _).
  destruct (Hint eq_refl 1%nat eq_refl) as (echo & Hrun & Hecho & Hline).
  pose proof (Hnth 0%nat 1 2 eq_refl eq_refl) as H0.
  pose proof (Hnth 1%nat 3 4 eq_refl eq_refl) as H1.
  exists values, echo.
  split; [reflexivity | ]. split; [exact Hlen | ].
  split; [exact H0 | ]. split; [exact H1 | ].
  split; [exact Hrun | ]. split; [exact Hecho | ].
  split; [exact (Hline 0%nat 65538 H0) | exact (Hline 1%nat 196612 H1)].
Defined.

Lemma wide_write_odd_count_example :
  execute integerFloat (stubClient None)
    (set_DataType "4:int" (set_WriteValues [1; 2; 3] defaultConfig)) 1 0%nat
  = (Returned (Some "32-bit integers require even number of values"),
     0%nat, []).
Proof. reflexivity. Qed.

(** [-t 4:hex host 1 2]: accepted, reported successful, nothing written. *)
Lemma hex_write_run :
  exists c : Config Z,
    parseArgs integerFloat 6 ["-t"; "4:hex"; "host"; "1"; "2"]
    = Returned (Ok c) /\
    WriteValues c = [1; 2] /\
    execute integerFloat (stubClient None) c 1 0%nat = (Returned None, 0%nat, []).
Proof.
  eexists. split; [reflexivity | ]. split; reflexivity.
Qed.

(** The same values with the type [4] are written. *)
Lemma plain_write_run :
  exists c : Config Z,
    parseArgs integerFloat 6 ["-t"; "4"; "host"; "1"; "2"]
    = Returned (Ok c) /\
    requests (eventsOf (execute integerFloat (stubClient None) c 1 0%nat))
    = [ReqWriteRegisters 1 [1; 2]].
Proof.
  eexists. split; reflexivity.
Qed.

(** [-0 -r 5 -1 host] and [-0 -r 9 -1 host] both read address 0. *)
Lemma zero_based_run :
  exists c5 c9 : Config Z,
    parseArgs integerFloat 6 ["-0"; "-r"; "5"; "-1"; "host"] = Returned (Ok c5) /\
    parseArgs integerFloat 6 ["-0"; "-r"; "9"; "-1"; "host"] = Returned (Ok c9) /\
    StartRef c5 = 5 /\ StartRef c9 = 9 /\
    requests (eventsOf (execute integerFloat (stubClient None) c5 1 0%nat))
    = [ReqReadRegisters 0 1 HOLDING_REGISTER] /\
    requests (eventsOf (execute integerFloat (stubClient None) c9 1 0%nat))
    = [ReqReadRegisters 0 1 HOLDING_REGISTER].
Proof.
  eexists; eexists. split; [reflexivity | ]. split; [reflexivity | ].
  repeat split.
Qed.

(** A validated configuration with ZeroBased on and StartRef 5: the one
    request of its run goes to address 0, and 5 mod 2^16 is 5. *)
Lemma StartRef_not_narrowed_when_zero_based :
  exists c : Config Z,
    parseArgs integerFloat 6 ["-0"; "-r"; "5"; "-1"; "host"] = Returned (Ok c) /\
    validateConfig c = None /\
    StartRef c mod 2 ^ 16 = 5 /\
    map requestAddr
      (requests (eventsOf (execute integerFloat (stubClient None) c 1 0%nat)))
    = [0].
Proof.
  eexists. split; [reflexivity | ]. repeat split.
Defined.

(** [-r 70000 -1 host] reads address 4464, and [-r -1 -1 host] address
    65535. *)
Lemma StartRef_narrowed_example :
  ZeroBased (set_StartRef 70000 (set_PollOnce true (@defaultConfig Z))) = false /\
  Forall (fun r => requestAddr r = 70000 mod 2 ^ 16)
    (requests
       (eventsOf
          (execute integerFloat (stubClient None)
             (set_StartRef 70000 (set_PollOnce true defaultConfig)) 1 0%nat))) /\
  requests
    (eventsOf
       (execute integerFloat (stubClient None)
          (set_StartRef 70000 (set_PollOnce true defaultConfig)) 1 0%nat))
  = [ReqReadRegisters 4464 1 HOLDING_REGISTER] /\
  requests
    (eventsOf
       (execute integerFloat (stubClient None)
          (set_StartRef (-1) (set_PollOnce true defaultConfig)) 1 0%nat))
  = [ReqReadRegisters 65535 1 HOLDING_REGISTER].
Proof.
  split; [reflexivity | ]. split; [ | split; reflexivity].
  apply (proj1 (proj2 (proj2
           (StartRef_narrowed integerFloat (stubClient None)
              (set_StartRef 70000 (set_PollOnce true defaultConfig))
              1 0%nat)))).
  reflexivity.
Defined.

(** A write of three coils, which sends them whatever the fuel; and a
    poll of the default configuration against a client whose third
    request times out: two reads with a sleep of one second after each,
    then the failed read ends the run. *)
Lemma execute_once_or_poll_example :
  requests
    (eventsOf
       (execute integerFloat (stubClient None)
          (set_DataType "0" (set_WriteValues [1; 0; 5] (@defaultConfig Z)))
          0 0%nat))
  = [ReqWriteCoils 1 [true; false; true]] /\
  execute integerFloat (stubClient (Some 2%nat)) defaultConfig 3 0%nat
  = (Returned (Some "failed to read holding registers: request timed out"),
       3%nat,
       [ Call (ReqReadRegisters 1 1 HOLDING_REGISTER);
         Print (LHeader "Holding Registers" 1 1);
         Print (LRegister 1 0 NoAnnotation);
         Sleep Second;
         Call (ReqReadRegisters 1 1 HOLDING_REGISTER);
         Print (LHeader "Holding Registers" 1 1);
         Print (LRegister 1 0 NoAnnotation);
         Sleep Second;
         Call (ReqReadRegisters 1 1 HOLDING_REGISTER) ]).
Proof.
  split.
  { exact (proj1 (proj2 (proj2 (proj2 (proj2
             (proj1 (execute_once_or_poll integerFloat (stubClient None)
                       (set_DataType "0"
                          (set_WriteValues [1; 0; 5] (@defaultConfig Z)))
                       0%nat)
                ltac:(discriminate) 0%nat)))))
             eq_refl). }
  set (round := [ Call (ReqReadRegisters 1 1 HOLDING_REGISTER);
                  Print (LHeader "Holding Registers" 1 1);
                  Print (LRegister 1 0 NoAnnotation) ]).
  assert (Hrounds :
    Rounds (stubClient (Some 2%nat)) (@defaultConfig Z) 1 2 0%nat
      (round ++ Sleep Second :: round ++ Sleep Second :: [])%list 2%nat).
  { exact (RoundsS (stubClient (Some 2%nat)) defaultConfig 1 1 0%nat 1%nat
             2%nat round (round ++ Sleep Second :: [])%list eq_refl
             (RoundsS (stubClient (Some 2%nat)) defaultConfig 1 0 1%nat 2%nat
                2%nat round [] eq_refl
                (RoundsO (stubClient (Some 2%nat)) defaultConfig 1 2%nat))). }
  exact (proj1 (proj2 (proj2 (execute_once_or_poll integerFloat
                                (stubClient (Some 2%nat)) defaultConfig 0%nat))
                  eq_refl eq_refl)
           2%nat 2%nat 3%nat _ _ _ Hrounds eq_refl 3%nat (Nat.lt_succ_diag_r 2)).
Defined.

(** * Further properties of the program *)

(** ** The parser: termination, errors and what it accepts *)

Section ParserBehaviour.

Context {float64 : Type} (F : Float64Ops float64).

Local Abbreviation Config := (Config float64).

Lemma parseLoop_more_fuel (args : list string) (fuel : nat) :
  forall (i : nat) (c : Config),
    parseLoop F fuel args i c <> OutOfFuel ->
    forall k : nat,
      parseLoop F (fuel + k) args i c = parseLoop F fuel args i c.
Proof.
  induction fuel as [ | fuel IH]; intros i c Hret k; cbn [parseLoop] in *.
  - contradiction.
  - cbn [Nat.add parseLoop].
    destruct (nth_error args i) as [arg | ]; [ | reflexivity].
    destruct (parseArg F args i arg c) as [i' c' | e | code];
      try reflexivity.
    apply IH. exact Hret.
Qed.

(** X1. A command line without the token [--] is parsed in at most
    [length args + 1] tests of the loop condition: the parser returns or
    exits, and more passes change nothing. *)
Theorem parseArgs_returns (args : list string) (fuel : nat) :
  ~ In "--" args ->
  (length args < fuel)%nat ->
  parseArgs F fuel args = parseArgs F (S (length args)) args /\
  parseArgs F fuel args <> OutOfFuel.
Proof.
  intros Hsep Hfuel.
  assert (Hret : parseArgs F (S (length args)) args <> OutOfFuel).
  { apply parseLoop_returns; [exact Hsep | lia]. }
  assert (Heq : parseArgs F fuel args = parseArgs F (S (length args)) args).
  { replace fuel with (S (length args) + (fuel - S (length args)))%nat by lia.
    apply parseLoop_more_fuel. exact Hret. }
  split; [exact Heq | ]. rewrite Heq. exact Hret.
Qed.

(** A state the loop reaches is one the parser continues from. *)
Lemma Reaches_parseLoop (args : list string) (i : nat) (c : Config) :
  Reaches F args i c ->
  exists k : nat,
    forall fuel : nat,
      parseArgs F (k + fuel) args = parseLoop F fuel args i c.
Proof.
  induction 1 as [ | i i' c c' arg Hreach [k IH] Harg Hstep].
  - exists O. reflexivity.
  - exists (S k). intros fuel.
    replace (S k + fuel)%nat with (k + S fuel)%nat by lia.
    rewrite IH. cbn [parseLoop]. rewrite Harg, Hstep. reflexivity.
Qed.

(** *** What an accepted configuration looks like *)

Lemma parseArg_one_target (args : list string) (i i' : nat) (arg : string)
    (c c' : Config) :
  parseArg F args i arg c = Next i' c' ->
  Host c = EmptyString \/ Device c = EmptyString ->
  Host c' = EmptyString \/ Device c' = EmptyString.
Proof.
  parse_cases; intros H Hc; inversion H; subst; cbn; auto;
    match goal with
    | E : _ && _ = true |- _ =>
        apply andb_prop in E; destruct E as [E1 E2];
        apply String.eqb_eq in E1; apply String.eqb_eq in E2; auto
    end.
Qed.

Lemma parseLoop_accepts (fuel : nat) (args : list string) :
  forall (i : nat) (c r : Config),
    Host c = EmptyString \/ Device c = EmptyString ->
    parseLoop F fuel args i c = Returned (Ok r) ->
    validateConfig r = None /\
    ((Host r <> EmptyString /\ Device r = EmptyString) \/
     (Host r = EmptyString /\ Device r <> EmptyString)).
Proof.
  induction fuel as [ | fuel IH]; intros i c r Hc; cbn [parseLoop].
  - discriminate.
  - destruct (nth_error args i) as [arg | ].
    + destruct (parseArg F args i arg c) as [i' c' | e | code] eqn:Hstep;
        try discriminate.
      apply IH. eapply parseArg_one_target; eauto.
    + unfold finishArgs.
      destruct (String.eqb_spec (Host c) EmptyString) as [Hh | Hh];
        destruct (String.eqb_spec (Device c) EmptyString) as [Hd | Hd];
        cbn [andb]; try discriminate;
        destruct (validateConfig c) eqn:Hv; try discriminate;
        intros H; inversion H; subst; (split; [exact Hv | ]);
        destruct Hc; try contradiction; auto.
Qed.

(** X2. A configuration the parser returns has passed validation, so the
    eight constraints hold of it, and exactly one of Host and Device is
    set in it. *)
Theorem accepted_config (fuel : nat) (args : list string) (c : Config) :
  parseArgs F fuel args = Returned (Ok c) ->
  (CountOk c /\ SlaveOk c /\ BaudOk c /\ DatabitsOk c /\ StopbitsOk c /\
   ParityOk c /\ PollRateOk c /\ TimeoutOk c) /\
  ((Host c <> EmptyString /\ Device c = EmptyString) \/
   (Host c = EmptyString /\ Device c <> EmptyString)).
Proof.
  intros H. apply parseLoop_accepts in H; [ | left; reflexivity].
  destruct H as [Hvalid Htarget].
  split; [ | exact Htarget].
  apply validateConfig_accepts. exact Hvalid.
Qed.

(** *** Errors of the option syntax *)

(** X3. An option that takes a value and is the last token fails with
    the missing-value error that names the option as it was written. *)
Theorem missing_value (args : list string) (i : nat) (opt : string)
    (c : Config) (fuel : nat) :
  In opt valuedOptions ->
  nth_error args i = Some opt ->
  nth_error args (i + 1) = None ->
  parseLoop F (S fuel) args i c
  = Returned (Err ("missing value for " ++ opt)).
Proof.
  intros Hopt Hi Hlast. cbn [parseLoop]. rewrite Hi.
  unfold parseArg, withValue. rewrite Hlast.
  cbn in Hopt. decompose [or] Hopt; subst; (reflexivity || contradiction).
Qed.

Lemma not_option_tests (arg : string) :
  ~ In arg optionNames ->
  forall short long : string,
    In short optionNames -> In long optionNames ->
    isOpt arg short long = false.
Proof.
  intros Hnot short long Hs Hl. unfold isOpt.
  destruct (String.eqb_spec arg short) as [-> | _]; [contradiction | ].
  destruct (String.eqb_spec arg long) as [-> | _]; [contradiction | ].
  reflexivity.
Qed.

Lemma option_starts_with_dash (opt : string) :
  In opt optionNames -> String.prefix "-" opt = true.
Proof.
  intros H. cbn in H. decompose [or] H; subst; (reflexivity || contradiction).
Qed.

(** The branch of the loop body that a token which is no option and not
    the separator takes. *)
Lemma parseArg_default (args : list string) (i : nat) (arg : string)
    (c : Config) :
  ~ In arg optionNames -> arg <> "--" ->
  parseArg F args i arg c
  = if String.prefix "-" arg then Fail ("unknown option: " ++ arg)
    else if String.eqb (Host c) EmptyString
            && String.eqb (Device c) EmptyString then
      if String.eqb (Mode c) "tcp"
      then Next (i + 1) (set_Host arg c)
      else Next (i + 1) (set_Device arg c)
    else if (length (WriteValues c) =? 0)%nat then
      match parseValues F (skipn i args) (WriteValues c) with
      | Err e => Fail e
      | Ok values => Next (length args + 1) (set_WriteValues values c)
      end
    else Next (i + 1) c.
Proof.
  intros Hnot Hsep.
  pose proof (not_option_tests arg Hnot) as Hopt.
  unfold parseArg.
  rewrite !Hopt
    by (unfold optionNames, valuedOptions, flagOptions, exitOptions;
        cbn [app In]; repeat (first [left; reflexivity | right])).
  destruct (String.eqb_spec arg "--") as [-> | _]; [contradiction | ].
  reflexivity.
Qed.

(** X4. A token that starts with [-] and is neither an option nor the
    separator fails as an unknown option, wherever it stands: so a
    negative number in the place of the target or of the first write
    value is refused. *)
Theorem unknown_option (args : list string) (i : nat) (arg : string)
    (c : Config) (fuel : nat) :
  nth_error args i = Some arg ->
  String.prefix "-" arg = true ->
  ~ In arg optionNames -> arg <> "--" ->
  parseLoop F (S fuel) args i c = Returned (Err ("unknown option: " ++ arg)).
Proof.
  intros Hi Hdash Hnot Hsep. cbn [parseLoop].
  rewrite Hi, parseArg_default, Hdash by assumption. reflexivity.
Qed.

Lemma parseValues_ok (tokens : list string) :
  forall values result : list float64,
    parseValues F tokens values = Ok result ->
    exists parsed : list float64,
      result = (values ++ parsed)%list /\
      Forall2 (fun t v => ParseFloat F t = Ok v) tokens parsed.
Proof.
  induction tokens as [ | t rest IH]; intros values result;
    cbn [parseValues].
  - intros H; inversion H. exists []. rewrite app_nil_r. split; constructor.
  - destruct (ParseFloat F t) as [v | e] eqn:Ht; [ | discriminate].
    intros H. apply IH in H. destruct H as (parsed & -> & Hall).
    exists (v :: parsed). rewrite <- app_assoc. split; [reflexivity | ].
    constructor; assumption.
Qed.

(** X5. Once the target is set, the first bare token starts the write
    values and every token after it is taken as one, options included:
    the parser returns at once. When all these tokens are numbers, the
    write values are the numbers in order and the final checks decide;
    otherwise the error is the invalid-write-value error of the first
    token that is no number. *)
Theorem write_values_take_the_rest (args : list string) (i : nat)
    (arg : string) (c : Config) (fuel : nat) :
  nth_error args i = Some arg ->
  String.prefix "-" arg = false ->
  Host c <> EmptyString \/ Device c <> EmptyString ->
  WriteValues c = [] ->
  (exists values : list float64,
     Forall2 (fun t v => ParseFloat F t = Ok v) (skipn i args) values /\
     parseLoop F (S (S fuel)) args i c
     = Returned (finishArgs (set_WriteValues values c))) \/
  (exists (before after : list string) (t parseError : string),
     skipn i args = (before ++ t :: after)%list /\
     Forall (fun t' => exists v, ParseFloat F t' = Ok v) before /\
     ParseFloat F t = Err parseError /\
     parseLoop F (S (S fuel)) args i c
     = Returned (Err ("invalid write value: " ++ t))).
Proof.
  intros Hi Hbare Htarget Hvalues.
  assert (Hnot : ~ In arg optionNames).
  { intros Hin. apply option_starts_with_dash in Hin. congruence. }
  assert (Hsep : arg <> "--") by (intros ->; discriminate).
  assert (Hloop : parseLoop F (S (S fuel)) args i c
                  = Returned
                      match parseValues F (skipn i args) [] with
                      | Err e => Err e
                      | Ok values => finishArgs (set_WriteValues values c)
                      end).
  { cbn [parseLoop]. rewrite Hi, parseArg_default, Hbare by assumption.
    replace (String.eqb (Host c) EmptyString
             && String.eqb (Device c) EmptyString) with false.
    2:{ destruct (String.eqb_spec (Host c) EmptyString);
          destruct (String.eqb_spec (Device c) EmptyString);
          try reflexivity. destruct Htarget; contradiction. }
    rewrite Hvalues. cbn [length Nat.eqb].
    destruct (parseValues F (skipn i args) []) as [values | e];
      [ | reflexivity].
    replace (nth_error args (length args + 1)) with (@None string)
      by (symmetry; apply nth_error_None; lia).
    reflexivity. }
  rewrite Hloop.
  destruct (parseValues F (skipn i args) []) as [values | e] eqn:Hparse.
  - left. apply parseValues_ok in Hparse.
    destruct Hparse as (parsed & -> & Hall).
    exists parsed. split; [exact Hall | reflexivity].
  - right. apply parseValues_error in Hparse.
    destruct Hparse as (before & after & t & pe & Hsplit & Hb & Ht & ->).
    exists before, after, t, pe. repeat split; assumption.
Qed.

(** X15. The target is classified by the mode in effect when it is
    seen: with the target first and [-m MODE] after it, the parser has
    bound Host, whatever the mode, and Device stays empty; for [rtu] the
    endpoint of the session is then [rtu://] with no device. *)
Theorem target_before_mode (target mode : string) :
  String.prefix "-" target = false ->
  target <> EmptyString ->
  exists c : Config,
    parseArgs F 4 [target; "-m"; mode] = Returned (Ok c) /\
    Host c = target /\ Device c = EmptyString /\ Mode c = mode /\
    (mode = "rtu" ->
     exists cc : ClientConfiguration,
       setupClient c = Ok cc /\ URL cc = "rtu://").
Proof.
  intros Hbare Hnonempty.
  assert (Hstep : parseArgs F 4 [target; "-m"; mode]
                  = Returned (finishArgs (set_Mode mode
                                (set_Host target defaultConfig)))).
  { unfold parseArgs. cbn [parseLoop nth_error].
    rewrite bare_token_target by (auto; reflexivity).
    cbn [Mode defaultConfig String.eqb Ascii.eqb Bool.eqb].
    cbn [parseLoop nth_error Nat.add].
    change (parseArg F [target; "-m"; mode] 1 "-m"
              (set_Host target defaultConfig))
      with (Next 3 (set_Mode mode (set_Host target (@defaultConfig float64)))).
    cbn [parseLoop nth_error]. reflexivity. }
  rewrite Hstep.
  destruct target as [ | a target']; [contradiction | ].
  eexists. split; [reflexivity | ].
  repeat split. intros ->. eexists. split; reflexivity.
Qed.

End ParserBehaviour.

(** *** Single options *)

Lemma digits_no_colon (s : string) :
  forall acc n : Z, digits s acc = Some n -> containsByte ":" s = false.
Proof.
  induction s as [ | ch s IH]; intros acc n; cbn [digits containsByte].
  - reflexivity.
  - destruct (Ascii.eqb_spec ":" ch) as [<- | _]; [discriminate | ].
    destruct (digitVal ch); [ | discriminate]. apply IH.
Qed.

Lemma Atoi_no_colon (s : string) (n : Z) :
  Atoi s = Ok n -> containsByte ":" s = false.
Proof.
  unfold Atoi.
  destruct (match s with
            | String "+" r => (false, r)
            | String "-" r => (true, r)
            | _ => (false, s)
            end) as [neg body] eqn:Hsplit.
  assert (Hsame : containsByte ":" s = containsByte ":" body).
  { destruct s as [ | ch s']; [inversion Hsplit; reflexivity | ].
    destruct ch as [[] [] [] [] [] [] [] []];
      inversion Hsplit; subst; reflexivity. }
  rewrite Hsame. clear Hsplit Hsame.
  destruct body as [ | ch body]; [discriminate | ].
  destruct (digits (String ch body) 0) as [m | ] eqn:Hd; [ | discriminate].
  intros _. eapply digits_no_colon; eauto.
Qed.

Lemma firstField_no_separator (sep : ascii) (s : string) :
  containsByte sep s = false -> firstField sep s = s.
Proof.
  induction s as [ | ch s IH]; cbn [containsByte firstField].
  - reflexivity.
  - destruct (Ascii.eqb sep ch); [discriminate | ].
    intros H. rewrite IH by exact H. reflexivity.
Qed.

Section ParserOptions.

Context {float64 : Type} (F : Float64Ops float64).

Local Abbreviation Config := (Config float64).

(** X6. The value of [-a]: of a comma-separated list the first field is
    the slave address; a value with a colon and no comma (a range) is
    always refused as an invalid slave address. *)
Theorem address_lists (args : list string) (i : nat) (opt v : string)
    (c : Config) :
  In opt ["-a"; "--address"] ->
  nth_error args (i + 1) = Some v ->
  (containsByte "," v = true ->
   forall addr : Z,
     Atoi (firstField "," v) = Ok addr ->
     parseArg F args i opt c = Next (i + 2) (set_SlaveID addr c)) /\
  (containsByte "," v = false -> containsByte ":" v = true ->
   exists e : string,
     parseArg F args i opt c = Fail ("invalid slave address: " ++ e)).
Proof.
  intros Hopt Hv.
  assert (Hstep : parseArg F args i opt c
                  = withInt "slave address"
                      (if containsByte "," v || containsByte ":" v
                       then firstField "," v else v)
                      (fun addr => Next (i + 2) (set_SlaveID addr c))).
  { cbn in Hopt. decompose [or] Hopt; subst; try contradiction;
      unfold parseArg, withValue; rewrite Hv; reflexivity. }
  rewrite Hstep. unfold withInt. split.
  - intros Hcomma addr Haddr. rewrite Hcomma. cbn [orb].
    rewrite Haddr. reflexivity.
  - intros Hcomma Hcolon. rewrite Hcomma, Hcolon. cbn [orb].
    rewrite firstField_no_separator by exact Hcomma.
    destruct (Atoi v) as [addr | e] eqn:Haddr.
    + apply Atoi_no_colon in Haddr. congruence.
    + exists e. reflexivity.
Qed.

(** X7. When the loop comes to [-h], [--help], [-V] or [--version] the
    program exits with code 0, whatever was collected before (validation
    has not run yet) and whatever follows. *)
Theorem help_exits (args : list string) (i : nat) (opt : string)
    (c : Config) :
  Reaches F args i c ->
  nth_error args i = Some opt ->
  In opt exitOptions ->
  exists k : nat,
    forall fuel : nat, (k <= fuel)%nat -> parseArgs F fuel args = Exited 0.
Proof.
  intros Hreach Hi Hopt.
  destruct (Reaches_parseLoop F args i c Hreach) as [k Hk].
  exists (S k). intros fuel Hfuel.
  replace fuel with (k + S (fuel - S k))%nat by lia.
  rewrite Hk. cbn [parseLoop]. rewrite Hi.
  cbn in Hopt. decompose [or] Hopt; subst; (reflexivity || contradiction).
Qed.

Lemma int64_small (z : Z) : - 2 ^ 63 <= z < 2 ^ 63 -> int64 z = z.
Proof.
  intros Hz. unfold int64. rewrite Z.mod_small; lia.
Qed.

(** X8. [-l n] with [n] up to 9223372036854 in magnitude sets the poll
    rate to exactly [n] milliseconds, which the poll-rate check accepts
    exactly when [n] is at least 10. *)
Theorem poll_rate_milliseconds (args : list string) (i : nat)
    (opt v : string) (n : Z) (c : Config) :
  In opt ["-l"; "--poll-rate"] ->
  nth_error args (i + 1) = Some v ->
  Atoi v = Ok n ->
  - 9223372036854 <= n <= 9223372036854 ->
  parseArg F args i opt c
  = Next (i + 2) (set_PollRate (n * Millisecond) c) /\
  (PollRateOk (set_PollRate (n * Millisecond) c) <-> 10 <= n).
Proof.
  intros Hopt Hv Hn Hrange.
  assert (Hmul : Go.mul n Millisecond = n * Millisecond).
  { unfold Go.mul. apply int64_small. unfold Millisecond. lia. }
  split.
  - cbn in Hopt. decompose [or] Hopt; subst; try contradiction;
      unfold parseArg, withValue, withInt; rewrite Hv; cbn;
      rewrite Hn, Hmul; reflexivity.
  - unfold PollRateOk. cbn [PollRate set_PollRate].
    unfold Millisecond. lia.
Qed.

(** ** The transport selector *)


End ParserOptions.

(** ** Reads, their output and the session *)

Section ReadBehaviour.

Context {float64 : Type} (F : Float64Ops float64).
Context {session : Type} (client : ModbusClient session).

Local Abbreviation Config := (Config float64).


(** X10. The read path sends one request chosen by the data type: coils
    for [0], discrete inputs for [1], input registers for [3] and its
    suffixes, holding registers for [4] and its suffixes, each for Count
    units when Count is within its range; any other type fails as
    unsupported and sends nothing. *)
Theorem read_dispatch (config : Config) (startRef : Z) (s : session) :
  CountOk config ->
  let sent := requests (eventsOf (performOperation client config startRef s)) in
  (DataType config = "0" ->
   sent = [ReqReadCoils (uint16 startRef) (Count config)]) /\
  (DataType config = "1" ->
   sent = [ReqReadDiscreteInputs (uint16 startRef) (Count config)]) /\
  (In (DataType config) ["3"; "3:hex"; "3:int"; "3:float"] ->
   sent = [ReqReadRegisters (uint16 startRef) (Count config) INPUT_REGISTER]) /\
  (In (DataType config) ["4"; "4:hex"; "4:int"; "4:float"] ->
   sent = [ReqReadRegisters (uint16 startRef) (Count config) HOLDING_REGISTER]) /\
  (~ In (DataType config)
       ["0"; "1"; "3"; "3:hex"; "3:int"; "3:float";
        "4"; "4:hex"; "4:int"; "4:float"] ->
   performOperation client config startRef s
   = (Some ("unsupported data type: " ++ DataType config), s, [])).
Proof.
  intros Hcount sent. subst sent.
  assert (Hq : uint16 (Count config) = Count config).
  { unfold uint16, CountOk in *. apply Z.mod_small. lia. }
  rewrite <- Hq at 1 2 3 4.
  split; [ | split; [ | split; [ | split]]].
  - intros Ht.
    unfold performOperation, dataTypeIn, readCoils. rewrite Ht.
    cbn [existsb String.eqb Ascii.eqb Bool.eqb orb].
    destruct (ReadCoils client s _ _) as [[coils | e] s'];
      cbn [eventsOf snd requests]; rewrite ?requests_prints; reflexivity.
  - intros Ht.
    unfold performOperation, dataTypeIn, readDiscreteInputs. rewrite Ht.
    cbn [existsb String.eqb Ascii.eqb Bool.eqb orb].
    destruct (ReadDiscreteInputs client s _ _) as [[inputs | e] s'];
      cbn [eventsOf snd requests]; rewrite ?requests_prints; reflexivity.
  - intros Ht.
    unfold performOperation, dataTypeIn, readInputRegisters.
    cbn in Ht. decompose [or] Ht; try contradiction;
      match goal with H : _ = DataType config |- _ => rewrite <- H end;
      cbn [existsb String.eqb Ascii.eqb Bool.eqb orb];
      (destruct (ReadRegisters client s _ _ _) as [[registers | e] s'];
       cbn [eventsOf snd requests]; rewrite ?requests_prints; reflexivity).
  - intros Ht.
    unfold performOperation, dataTypeIn, readHoldingRegisters.
    cbn in Ht. decompose [or] Ht; try contradiction;
      match goal with H : _ = DataType config |- _ => rewrite <- H end;
      cbn [existsb String.eqb Ascii.eqb Bool.eqb orb];
      (destruct (ReadRegisters client s _ _ _) as [[registers | e] s'];
       cbn [eventsOf snd requests]; rewrite ?requests_prints; reflexivity).
  - intros Ht. unfold performOperation, dataTypeIn. cbn [existsb].
    repeat match goal with
      | |- context [String.eqb (DataType config) ?t] =>
          destruct (String.eqb_spec (DataType config) t) as [Heq | _];
          [ exfalso; apply Ht; rewrite Heq; cbn; tauto | ]
      end.
    reflexivity.
Qed.

(** X11. After the header with the range [startRef .. startRef+Count-1]
    every register read gets a line of its own, at its own address. With a wide type the first register of a pair
    carries the combined value and the second none; a last register
    without a partner carries none either. With [hex] every line carries
    the register in hexadecimal, and without a suffix none is annotated. *)
Theorem register_lines (config : Config) (startRef : Z)
    (registers : list Z) (regType : string) :
  let lines := printRegisters config startRef registers regType in
  length lines = S (length registers) /\
  nth_error lines 0
  = Some (LHeader regType startRef
            (Go.add (Go.add startRef (Count config)) (-1))) /\
  forall (i : nat) (reg : Z),
    nth_error registers i = Some reg ->
    exists ann : annotation,
      nth_error lines (S i)
      = Some (LRegister (Go.add startRef (Z.of_nat i)) reg ann) /\
      (In (DataType config) ["3"; "4"] -> ann = NoAnnotation) /\
      (In (DataType config) ["3:hex"; "4:hex"] -> ann = AnnHex reg) /\
      (In (DataType config) ["3:int"; "4:int"] ->
       ann = if (i mod 2 =? 0)%nat && (i + 1 <? length registers)%nat
             then AnnInt32 (wideInt32 (BigEndian config) reg
                                      (nth (i + 1) registers 0))
             else NoAnnotation) /\
      (In (DataType config) ["3:float"; "4:float"] ->
       ann = if (i mod 2 =? 0)%nat && (i + 1 <? length registers)%nat
             then AnnFloat32 (wideFloat32 (BigEndian config) reg
                                          (nth (i + 1) registers 0))
             else NoAnnotation).
Proof.
  intros lines. subst lines. unfold printRegisters.
  split; [ | split; [reflexivity | ]].
  - cbn [length]. unfold indexed.
    rewrite length_map, length_combine, length_seq, Nat.min_id. reflexivity.
  - intros i reg Hreg. exists (annotate config registers i reg).
    split.
    + cbn [nth_error].
      rewrite nth_error_map, (nth_error_indexed registers i reg Hreg).
      reflexivity.
    + assert (Hnth : nth i registers 0 = reg)
        by (apply nth_error_nth; exact Hreg).
      unfold annotate, dataTypeIn. rewrite Hnth.
      repeat split; intros Ht; cbn in Ht; decompose [or] Ht;
        try contradiction;
        match goal with H : _ = DataType config |- _ => rewrite <- H end;
        reflexivity.
Qed.

(** X16. A read of coils or discrete inputs that succeeds prints the
    header with the range [startRef .. startRef+Count-1] and then one line
    per bit the client returned, in order, at the addresses from
    [startRef] on, each bit as 0 or 1. *)
Theorem bit_lines (config : Config) (startRef : Z) (s s' : session)
    (bits : list bool) :
  (ReadCoils client s (uint16 startRef) (uint16 (Count config))
   = (Ok bits, s') ->
   performOperation client (set_DataType "0" config) startRef s
   = (None, s',
      Call (ReqReadCoils (uint16 startRef) (uint16 (Count config)))
        :: map Print (LHeader "Coils" startRef
                        (Go.add (Go.add startRef (Count config)) (-1))
                      :: bitLines startRef bits))) /\
  (ReadDiscreteInputs client s (uint16 startRef) (uint16 (Count config))
   = (Ok bits, s') ->
   performOperation client (set_DataType "1" config) startRef s
   = (None, s',
      Call (ReqReadDiscreteInputs (uint16 startRef) (uint16 (Count config)))
        :: map Print (LHeader "Discrete Inputs" startRef
                        (Go.add (Go.add startRef (Count config)) (-1))
                      :: bitLines startRef bits))) /\
  length (bitLines startRef bits) = length bits /\
  forall (i : nat) (b : bool),
    nth_error bits i = Some b ->
    nth_error (bitLines startRef bits) i
    = Some (LValue (Go.add startRef (Z.of_nat i)) (if b then 1 else 0)).
Proof.
  split; [ | split; [ | split]].
  - intros Hread.
    change (performOperation client (set_DataType "0" config) startRef s)
      with (readCoils client config startRef s).
    unfold readCoils. rewrite Hread. reflexivity.
  - intros Hread.
    change (performOperation client (set_DataType "1" config) startRef s)
      with (readDiscreteInputs client config startRef s).
    unfold readDiscreteInputs. rewrite Hread. reflexivity.
  - unfold bitLines, indexed.
    rewrite length_map, length_combine, length_seq. apply Nat.min_id.
  - intros i b Hb. unfold bitLines.
    rewrite nth_error_map, (nth_error_indexed bits i b Hb). reflexivity.
Qed.

(** X17. A write that reports success has run on a writable type, and
    on every such type but [4:hex] it has sent exactly one request that
    carries every value: coils as [v != 0], plain registers narrowed to 16
    bits, wide values as the combined pairs of an even number of values. *)
Theorem successful_write (config : Config) (startRef : Z) (s s' : session)
    (evs : list event) :
  performWriteOperation F client config startRef s = (None, s', evs) ->
  In (DataType config) ["0"; "4"; "4:hex"; "4:int"; "4:float"] /\
  WriteValues config <> [] /\
  (DataType config = "0" ->
   requests evs
   = [ReqWriteCoils (uint16 startRef)
        (map (nonZero F) (WriteValues config))]) /\
  (DataType config = "4" ->
   requests evs
   = [ReqWriteRegisters (uint16 startRef)
        (map (toUint16 F) (WriteValues config))]) /\
  (DataType config = "4:int" ->
   requests evs
   = [ReqWriteUint32s (uint16 startRef)
        (widePairs F config (WriteValues config))] /\
   (2 * length (widePairs F config (WriteValues config))
    = length (WriteValues config))%nat) /\
  (DataType config = "4:float" ->
   requests evs
   = [ReqWriteFloat32s (uint16 startRef)
        (map Float32frombits (widePairs F config (WriteValues config)))] /\
   (2 * length (widePairs F config (WriteValues config))
    = length (WriteValues config))%nat).
Proof.
  intros Hop.
  assert (Hvalues : WriteValues config <> []).
  { intros Hnil. unfold performWriteOperation in Hop. rewrite Hnil in Hop.
    discriminate. }
  assert (Hlen : (length (WriteValues config) =? 0)%nat = false).
  { destruct (WriteValues config); [contradiction | reflexivity]. }
  assert (Htype : In (DataType config) ["0"; "4"; "4:hex"; "4:int"; "4:float"]).
  { destruct (dataTypeIn config ["0"; "4"; "4:hex"; "4:int"; "4:float"])
      eqn:Hin.
    - unfold dataTypeIn in Hin. apply existsb_exists in Hin.
      destruct Hin as (t & Hin & Heq). apply String.eqb_eq in Heq.
      rewrite Heq. exact Hin.
    - rewrite (unwritable_type F client config startRef s Hvalues Hin) in Hop.
      discriminate. }
  assert (Hpairs : (length (WriteValues config) mod 2 =? 0)%nat = true ->
                   (2 * length (widePairs F config (WriteValues config))
                    = length (WriteValues config))%nat).
  { intros Heven. apply Nat.eqb_eq in Heven.
    rewrite widePairs_length.
    pose proof (Nat.div_mod_eq (length (WriteValues config)) 2). lia. }
  split; [exact Htype | ]. split; [exact Hvalues | ].
  unfold performWriteOperation, writeCoils, writeHoldingRegisters, dataTypeIn
    in Hop.
  rewrite Hlen in Hop.
  (split; [ | split; [ | split]]); intros Ht; rewrite Ht in Hop;
    cbn [existsb String.eqb Ascii.eqb Bool.eqb orb] in Hop;
    try (destruct (length (WriteValues config) mod 2 =? 0)%nat eqn:Heven;
         cbn [negb] in Hop; [split; [ | apply Hpairs; reflexivity]
                            | discriminate]);
    match type of Hop with
    | context [match ?x with _ => _ end] => destruct x as [[e | ] s1]
    end; try discriminate;
    inversion Hop; subst; cbn [requests]; rewrite requests_prints;
    reflexivity.
Qed.

Lemma pollLoop_Verbose (b : bool) (config : Config) (startRef : Z)
    (fuel : nat) :
  forall s : session,
    pollLoop client (set_Verbose b config) fuel startRef s
    = pollLoop client config fuel startRef s.
Proof.
  induction fuel as [ | fuel IH]; intros s; cbn [pollLoop].
  - reflexivity.
  - change (performOperation client (set_Verbose b config) startRef s)
      with (performOperation client config startRef s).
    destruct (performOperation client config startRef s)
      as [[[e | ] s'] evs]; [reflexivity | ].
    cbn [PollOnce PollRate set_Verbose].
    destruct (PollOnce config); [reflexivity | ].
    rewrite IH. reflexivity.
Qed.

(** X12. The verbose flag only adds output: a run with it differs from
    the run without it by the six lines of the configuration report in
    front; result, session, requests and sleeps are the same. *)
Theorem verbose_only_prints (config : Config) (fuel : nat) (s : session) :
  let quiet := execute F client (set_Verbose false config) fuel s in
  let loud := execute F client (set_Verbose true config) fuel s in
  resultOf loud = resultOf quiet /\
  sessionOf loud = sessionOf quiet /\
  eventsOf loud = (map Print (printConfig config) ++ eventsOf quiet)%list /\
  length (printConfig config) = 6%nat /\
  requests (eventsOf loud) = requests (eventsOf quiet) /\
  sleeps (eventsOf loud) = sleeps (eventsOf quiet).
Proof.
  intros quiet loud.
  assert (Hloud : eventsOf loud
                  = (map Print (printConfig config) ++ eventsOf quiet)%list
                  /\ resultOf loud = resultOf quiet
                  /\ sessionOf loud = sessionOf quiet).
  { subst quiet loud. unfold execute.
    cbn [WriteValues Verbose set_Verbose].
    change (executeStartRef (set_Verbose true config))
      with (executeStartRef config).
    change (executeStartRef (set_Verbose false config))
      with (executeStartRef config).
    change (printConfig (set_Verbose true config)) with (printConfig config).
    destruct (0 <? length (WriteValues config))%nat.
    - change (performWriteOperation F client (set_Verbose true config))
        with (performWriteOperation F client config).
      change (performWriteOperation F client (set_Verbose false config))
        with (performWriteOperation F client config).
      destruct (performWriteOperation F client config
                  (executeStartRef config) s) as [[e s'] evs].
      repeat split.
    - rewrite !pollLoop_Verbose.
      destruct (pollLoop client config fuel (executeStartRef config) s)
        as [[r s'] evs].
      repeat split. }
  destruct Hloud as (Hevs & Hres & Hsess).
  rewrite Hevs, requests_app, sleeps_app, requests_prints, sleeps_prints.
  repeat split; assumption.
Qed.

End ReadBehaviour.

(** ** The whole run *)

Section RunBehaviour.

Context {float64 : Type} (F : Float64Ops float64).
Context {session : Type} (client : ModbusClient session).
Variable transport : Transport session.

Local Abbreviation Config := (Config float64).

(** X13. What a run that returns has done to the library is one of four
    things: nothing (the arguments or the mode were refused); only the
    creation of the client, which failed; creation and a failed open,
    reported as a connection failure; or creation, open, the unit
    identifier set to SlaveID, the encoding set to big-endian with the low
    word first, the operations, and the close as the last call. The
    session is closed exactly when it was opened, and no command line
    selects another encoding. *)
Theorem run_lifecycle (parseFuel execFuel : nat) (args : list string)
    (r : option string) (log : list runEvent) :
  run F client transport parseFuel execFuel args = (Returned r, log) ->
  (exists e : string, r = Some e /\ log = []) \/
  (exists (e : string) (cc : ClientConfiguration),
     r = Some e /\ log = [RNewClient cc]) \/
  (exists (e : string) (cc : ClientConfiguration),
     r = Some ("failed to connect: " ++ e) /\
     log = [RNewClient cc; ROpen]) \/
  (exists (c : Config) (cc : ClientConfiguration) (evs : list event),
     parseArgs F parseFuel args = Returned (Ok c) /\
     setupClient c = Ok cc /\
     log = (RNewClient cc :: ROpen :: RSetUnitId (SlaveID c)
              :: RSetEncoding BIG_ENDIAN LOW_WORD_FIRST
              :: map ROp evs ++ [RClose])%list).
Proof.
  unfold run.
  destruct (parseArgs F parseFuel args) as [[c | e] | code | ] eqn:Hparse;
    try discriminate.
  2:{ intros H; inversion H; subst. left. eauto. }
  destruct (setupClient c) as [cc | e] eqn:Hsetup.
  2:{ intros H; inversion H; subst. left. eauto. }
  destruct (NewClient transport cc) as [s | e].
  2:{ intros H; inversion H; subst. right; left. eauto. }
  assert (Hbig : BigEndian c = true)
    by (eapply parseLoop_BigEndian; [ | exact Hparse]; reflexivity).
  assert (Hslave : uint8 (SlaveID c) = SlaveID c).
  { apply parseLoop_accepts in Hparse; [ | left; reflexivity].
    destruct Hparse as [Hvalid _].
    apply validateConfig_accepts in Hvalid.
    destruct Hvalid as (_ & Hs & _). unfold SlaveOk in Hs.
    unfold uint8. apply Z.mod_small. lia. }
  unfold connect. rewrite Hbig, Hslave. cbn [negb].
  destruct (Open transport s) as [[e | ] s'].
  { intros H; inversion H; subst. right; right; left.
    exists e, cc. split; reflexivity. }
  destruct (execute F client c execFuel _) as [[[err | code | ] s2] evs];
    try discriminate.
  intros H; inversion H; subst.
  right; right; right. exists c, cc, evs.
  repeat split; try assumption.
Qed.

(** X14. While the poll loop has not returned the session stays open:
    the log of a run that is still going has no close in it. *)
Theorem unfinished_run_not_closed (parseFuel execFuel : nat)
    (args : list string) (log : list runEvent) :
  run F client transport parseFuel execFuel args = (OutOfFuel, log) ->
  forallb (fun ev => match ev with RClose => false | _ => true end) log
  = true.
Proof.
  unfold run.
  destruct (parseArgs F parseFuel args) as [[c | e] | code | ];
    try discriminate.
  2:{ intros H; inversion H; reflexivity. }
  destruct (setupClient c) as [cc | e]; [ | discriminate].
  destruct (NewClient transport cc) as [s | e]; [ | discriminate].
  destruct (connect transport c s) as [[[e | ] s1] clog] eqn:Hconnect;
    [discriminate | ].
  destruct (execute F client c execFuel s1) as [[[err | code | ] s2] evs];
    try discriminate.
  intros H; inversion H; subst.
  cbn [forallb andb]. rewrite forallb_app.
  unfold connect in Hconnect.
  destruct (Open transport s) as [[e | ] s']; [discriminate | ].
  inversion Hconnect; subst. cbn [forallb andb].
  rewrite forallb_forall. intros ev Hev.
  apply in_map_iff in Hev. destruct Hev as (x & <- & _). reflexivity.
Qed.

End RunBehaviour.

(** ** These properties at work *)

Lemma parseArgs_returns_example :
  (3 < 9)%nat /\
  parseArgs integerFloat 9 ["-c"; "2"; "host"]
  = parseArgs integerFloat 4 ["-c"; "2"; "host"] /\
  parseArgs integerFloat 9 ["-c"; "2"; "host"] <> OutOfFuel.
Proof.
  split; [lia | ].
  apply (parseArgs_returns integerFloat ["-c"; "2"; "host"] 9).
  - cbn. intros H. decompose [or] H; try discriminate; contradiction.
  - cbn. lia.
Defined.

Lemma accepted_config_example :
  exists c : Config Z,
    parseArgs integerFloat 4 ["-m"; "rtu"; "/dev/ttyUSB0"] = Returned (Ok c) /\
    (CountOk c /\ SlaveOk c /\ BaudOk c /\ DatabitsOk c /\ StopbitsOk c /\
     ParityOk c /\ PollRateOk c /\ TimeoutOk c) /\
    ((Host c <> EmptyString /\ Device c = EmptyString) \/
     (Host c = EmptyString /\ Device c <> EmptyString)).
Proof.
  eexists. split; [reflexivity | ].
  apply (accepted_config integerFloat 4 ["-m"; "rtu"; "/dev/ttyUSB0"]).
  reflexivity.
Defined.

Lemma missing_value_example :
  parseArgs integerFloat 3 ["host"; "-c"]
  = Returned (Err "missing value for -c").
Proof.
  exact (missing_value integerFloat ["host"; "-c"] 1 "-c"
           (set_Host "host" defaultConfig) 1
           (or_intror (or_intror (or_intror (or_intror (or_intror
              (or_intror (or_introl eq_refl)))))))
           eq_refl eq_refl).
Defined.

Lemma unknown_option_example :
  parseArgs integerFloat 3 ["host"; "-5"]
  = Returned (Err "unknown option: -5").
Proof.
  apply (unknown_option integerFloat ["host"; "-5"] 1 "-5"
           (set_Host "host" defaultConfig) 1).
  - reflexivity.
  - reflexivity.
  - cbn. intros H. decompose [or] H; try discriminate; contradiction.
  - discriminate.
Defined.

(** [host 1 -t 0]: the option after the first write value is taken as a
    write value and refused. *)
Lemma write_values_take_the_rest_example :
  (exists values : list Z,
     Forall2 (fun t v => ParseFloat integerFloat t = Ok v)
       (skipn 1 ["host"; "1"; "-t"; "0"]) values /\
     parseLoop integerFloat 2 ["host"; "1"; "-t"; "0"] 1
       (set_Host "host" defaultConfig)
     = Returned (finishArgs (set_WriteValues values
                               (set_Host "host" defaultConfig)))) \/
  (exists (before after : list string) (t parseError : string),
     skipn 1 ["host"; "1"; "-t"; "0"] = (before ++ t :: after)%list /\
     Forall (fun t' => exists v, ParseFloat integerFloat t' = Ok v) before /\
     ParseFloat integerFloat t = Err parseError /\
     parseLoop integerFloat 2 ["host"; "1"; "-t"; "0"] 1
       (set_Host "host" defaultConfig)
     = Returned (Err ("invalid write value: " ++ t))).
Proof.
  apply (write_values_take_the_rest integerFloat ["host"; "1"; "-t"; "0"] 1
           "1" (set_Host "host" defaultConfig) 0).
  - reflexivity.
  - reflexivity.
  - left. discriminate.
  - reflexivity.
Defined.

Lemma write_values_option_refused :
  parseArgs integerFloat 9 ["host"; "1"; "-t"; "0"]
  = Returned (Err "invalid write value: -t").
Proof. reflexivity. Qed.

Lemma target_before_mode_example :
  exists c : Config Z,
    parseArgs integerFloat 4 ["/dev/ttyUSB0"; "-m"; "rtu"] = Returned (Ok c) /\
    Host c = "/dev/ttyUSB0" /\ Device c = EmptyString /\ Mode c = "rtu" /\
    ("rtu" = "rtu" ->
     exists cc : ClientConfiguration,
       setupClient c = Ok cc /\ URL cc = "rtu://").
Proof.
  apply (target_before_mode integerFloat "/dev/ttyUSB0" "rtu").
  - reflexivity.
  - discriminate.
Defined.

Lemma address_lists_example :
  parseArg integerFloat ["-a"; "3,4,5"; "host"] 0 "-a" defaultConfig
  = Next 2 (set_SlaveID 3 defaultConfig) /\
  exists e : string,
    parseArg integerFloat ["-a"; "1:5"; "host"] 0 "-a" defaultConfig
    = Fail ("invalid slave address: " ++ e).
Proof.
  split.
  - exact (proj1 (address_lists integerFloat ["-a"; "3,4,5"; "host"] 0 "-a"
                    "3,4,5" defaultConfig (or_introl eq_refl) eq_refl)
             eq_refl 3 eq_refl).
  - exact (proj2 (address_lists integerFloat ["-a"; "1:5"; "host"] 0 "-a"
                    "1:5" defaultConfig (or_introl eq_refl) eq_refl)
             eq_refl eq_refl).
Defined.

(** [-c 999 -h]: the count is out of range, and the program exits 0. *)
Lemma help_exits_example :
  exists k : nat,
    forall fuel : nat,
      (k <= fuel)%nat ->
      parseArgs integerFloat fuel ["-c"; "999"; "-h"] = Exited 0.
Proof.
  apply (help_exits integerFloat ["-c"; "999"; "-h"] 2 "-h"
           (set_Count 999 defaultConfig)).
  - apply (ReachesNext integerFloat _ 0 2 defaultConfig _ "-c");
      [apply ReachesStart | reflexivity | reflexivity].
  - reflexivity.
  - left. reflexivity.
Defined.

Lemma poll_rate_milliseconds_example :
  parseArg integerFloat ["-l"; "500"; "host"] 0 "-l" defaultConfig
  = Next 2 (set_PollRate (500 * Millisecond) defaultConfig) /\
  (PollRateOk (set_PollRate (500 * Millisecond) (@defaultConfig Z))
   <-> 10 <= 500).
Proof.
  apply (poll_rate_milliseconds integerFloat ["-l"; "500"; "host"] 0 "-l"
           "500" 500 defaultConfig).
  - left. reflexivity.
  - reflexivity.
  - reflexivity.
  - lia.
Defined.

Lemma read_dispatch_example :
  requests
    (eventsOf
       (performOperation (stubClient None)
          (set_DataType "3:float" (set_Count 2 (@defaultConfig Z))) 7 0%nat))
  = [ReqReadRegisters (uint16 7) 2 INPUT_REGISTER].
Proof.
  refine (proj1 (proj2 (proj2
            (read_dispatch (stubClient None)
               (set_DataType "3:float" (set_Count 2 (@defaultConfig Z)))
               7 0%nat _))) _).
  - unfold CountOk. cbn. lia.
  - cbn. tauto.
Defined.

Lemma successful_write_example :
  requests
    (eventsOf
       (performWriteOperation integerFloat (stubClient None)
          (set_WriteValues [1; 70000] (@defaultConfig Z)) 1 0%nat))
  = [ReqWriteRegisters (uint16 1) (map uint16 [1; 70000])].
Proof.
  exact (proj1 (proj2 (proj2 (proj2
           (successful_write integerFloat (stubClient None)
              (set_WriteValues [1; 70000] (@defaultConfig Z)) 1 0%nat
              _ _ eq_refl))))
           eq_refl).
Defined.

Lemma run_lifecycle_example :
  exampleRunOnce
  = (Returned None,
     [ RNewClient {| URL := "tcp://host:502"; Speed := 0; DataBits := 0;
                     StopBits := 0; ClientTimeout := Second |};
       ROpen; RSetUnitId 1; RSetEncoding BIG_ENDIAN LOW_WORD_FIRST;
       ROp (Call (ReqReadRegisters 1 1 HOLDING_REGISTER));
       ROp (Print (LHeader "Holding Registers" 1 1));
       ROp (Print (LRegister 1 0 NoAnnotation));
       RClose ]) /\
  ((exists e : string, @None string = Some e /\ snd exampleRunOnce = []) \/
   (exists (e : string) (cc : ClientConfiguration),
      @None string = Some e /\ snd exampleRunOnce = [RNewClient cc]) \/
   (exists (e : string) (cc : ClientConfiguration),
      None = Some ("failed to connect: " ++ e) /\
      snd exampleRunOnce = [RNewClient cc; ROpen]) \/
   (exists (c : Config Z) (cc : ClientConfiguration) (evs : list event),
      parseArgs integerFloat 5 ["-1"; "host"] = Returned (Ok c) /\
      setupClient c = Ok cc /\
      snd exampleRunOnce
      = (RNewClient cc :: ROpen :: RSetUnitId (SlaveID c)
           :: RSetEncoding BIG_ENDIAN LOW_WORD_FIRST
           :: map ROp evs ++ [RClose])%list)).
Proof.
  split; [reflexivity | ].
  exact (run_lifecycle integerFloat (stubClient None) (stubTransport false)
           5 1 ["-1"; "host"] None (snd exampleRunOnce) eq_refl).
Defined.

Lemma unfinished_run_not_closed_example :
  fst exampleRunPolling = OutOfFuel /\
  forallb (fun ev => match ev with RClose => false | _ => true end)
    (snd exampleRunPolling) = true.
Proof.
  split; [reflexivity | ].
  exact (unfinished_run_not_closed integerFloat (stubClient None)
           (stubTransport false) 5 2 ["host"] (snd exampleRunPolling)
           eq_refl).
Defined.
